(** * otel-labs: the measuring HTTP transport and its attribute extractor

    A shallow embedding of

    - [httpclient/semconv] : [splitHostPort], [httpConv.peerName],
      [ClientRequest], [ClientResponse];
    - [httpclient/transport.go] : [Transport.RoundTrip];

    together with the parts of the Go standard library that
    [splitHostPort] calls ([strings.HasPrefix], [strings.LastIndex],
    [net.SplitHostPort], [strconv.ParseUint]).

    Conventions.  A Go [string] is a [string] of bytes.  A Go [int] is a [Z];
    the only [int]s of this code are byte offsets into a string and one
    parsed port, and the single conversion that could wrap ([int(p)]) is
    written out.  A run-time panic (index or slice out of range, nil
    dereference) is [None]. *)

From Stdlib Require Import ZArith Bool List Lia.
From Stdlib Require Import Strings.String Strings.Ascii.
From Stdlib Require Import Floats.SpecFloat.
From Stdlib Require DecimalString DecimalPos Sorted.
From stdpp Require Import base option gmap strings.

Local Open Scope string_scope.
Local Open Scope Z_scope.

(** ** Go strings: [len], indexing, slicing *)

Module GoString.

Definition len (s : string) : Z := Z.of_nat (String.length s).

(** [s[i]]; panics when [i] is out of range. *)
Definition at_ (s : string) (i : Z) : option ascii :=
  if (0 <=? i) && (i <? len s) then String.get (Z.to_nat i) s else None.

(** [s[lo:hi]]; panics unless [0 <= lo <= hi <= len s]. *)
Definition slice (s : string) (lo hi : Z) : option string :=
  if (0 <=? lo) && (lo <=? hi) && (hi <=? len s)
  then Some (String.substring (Z.to_nat lo) (Z.to_nat (hi - lo)) s)
  else None.

(** [s[lo:]] *)
Definition slice_from (s : string) (lo : Z) : option string :=
  slice s lo (len s).

(** [s[:hi]] *)
Definition slice_to (s : string) (hi : Z) : option string :=
  slice s 0 hi.

(** [bytealg.IndexByteString]: offset of the first [c] in [s], or -1. *)
Fixpoint IndexByte (s : string) (c : ascii) : Z :=
  match s with
  | EmptyString => -1
  | String a s' =>
      if Ascii.eqb a c then 0
      else let i := IndexByte s' c in
           if i <? 0 then -1 else i + 1
  end.

(** [bytealg.LastIndexByteString]: offset of the last [c] in [s], or -1. *)
Fixpoint LastIndexByte (s : string) (c : ascii) : Z :=
  match s with
  | EmptyString => -1
  | String a s' =>
      let i := LastIndexByte s' c in
      if 0 <=? i then i + 1
      else if Ascii.eqb a c then 0 else -1
  end.

End GoString.

(** ** Package [strings] *)

Module strings.

(** [strings.HasPrefix(s, prefix)] *)
Definition HasPrefix (s prefix : string) : bool := String.prefix prefix s.

(** [strings.LastIndex(s, substr)] for a one-byte [substr], the only use
    the code makes of it (Go dispatches that case to the byte search). *)
Definition LastIndex (s : string) (c : ascii) : Z :=
  GoString.LastIndexByte s c.

End strings.

(** ** Errors *)

Inductive NumErrKind := ErrSyntax | ErrRange | ErrBitSize.

Inductive error :=
| AddrError (Err Addr : string)            (* *net.AddrError *)
| NumError (Func Num : string) (Err : NumErrKind)  (* *strconv.NumError *)
| DispatchError (msg : string).            (* whatever a RoundTripper returns *)

(** ** Package [strconv] *)

Module strconv.

Definition maxUint64 : Z := 2 ^ 64 - 1.
Definition IntSize : Z := 64.

(** [uint64] wrap-around *)
Definition u64 (z : Z) : Z := z mod 2 ^ 64.

Definition byte_of (c : ascii) : Z := Z.of_N (N_of_ascii c).

(** [lower(c)] is [c | ('x' - 'X')]. *)
Definition lower (c : Z) : Z := Z.lor c 32.

(** One loop: the body of [for _, c := range []byte(s)] of [ParseUint]
    with [base] in 2..36 (so [base0] is false and [_] is not a digit).
    [inl e] is the early [return]; [inr n] the accumulator at loop exit. *)
Fixpoint ParseUint_loop (s0 : string) (base cutoff maxVal : Z)
         (s : string) (n : Z) : (Z * error) + Z :=
  match s with
  | EmptyString => inr n
  | String ch rest =>
      let c := byte_of ch in
      let digit :=
        if (48 <=? c) && (c <=? 57) then Some (c - 48)
        else if (97 <=? lower c) && (lower c <=? 122)
             then Some (lower c - 97 + 10)
             else None in
      match digit with
      | None => inl (0, NumError "ParseUint" s0 ErrSyntax)
      | Some d =>
          if base <=? d then inl (0, NumError "ParseUint" s0 ErrSyntax)
          else if cutoff <=? n then
                 (* n*base overflows *)
                 inl (maxVal, NumError "ParseUint" s0 ErrRange)
          else
            let n' := u64 (n * base) in
            let n1 := u64 (n' + d) in
            if (n1 <? n') || (maxVal <? n1) then
              (* n+d overflows *)
              inl (maxVal, NumError "ParseUint" s0 ErrRange)
            else ParseUint_loop s0 base cutoff maxVal rest n1
      end
  end.

(** [strconv.ParseUint(s, 10, bitSize)] *)
Definition ParseUint10 (s : string) (bitSize : Z) : Z * option error :=
  if String.eqb s "" then (0, Some (NumError "ParseUint" s ErrSyntax))
  else
    let bitSize' := if bitSize =? 0 then IntSize else bitSize in
    if (bitSize' <? 0) || (64 <? bitSize') then
      (0, Some (NumError "ParseUint" s ErrBitSize))
    else
      let cutoff := maxUint64 / 10 + 1 in
      let maxVal := u64 (u64 (Z.shiftl 1 bitSize') - 1) in
      match ParseUint_loop s 10 cutoff maxVal s 0 with
      | inl (v, e) => (v, Some e)
      | inr n => (n, None)
      end.

(** The conversion [int(p)] of a [uint64] on a 64-bit platform. *)
Definition int_of_uint64 (p : Z) : Z :=
  if p <? 2 ^ 63 then p else p - 2 ^ 64.

End strconv.

(** ** Package [net] *)

Module net.

Definition missingPort := "missing port in address".
Definition tooManyColons := "too many colons in address".

Definition addrErr (addr why : string) : string * string * option error :=
  ("", "", Some (AddrError why addr)).

Definition is_byte (o : ascii) (c : ascii) : bool := Ascii.eqb o c.

(** [net.SplitHostPort(hostport)]: [(host, port, err)], or a panic. *)
Definition SplitHostPort (hostport : string)
  : option (string * string * option error) :=
  let i := GoString.LastIndexByte hostport ":" in
  if i <? 0 then Some (addrErr hostport missingPort)
  else
    c0 ← GoString.at_ hostport 0;
    (* [inl] is an early return, [inr (host, j, k)] goes on *)
    step ←
      (if is_byte c0 "[" then
         let end_ := GoString.IndexByte hostport "]" in
         if end_ <? 0 then
           Some (inl (addrErr hostport "missing ']' in address"))
         else if end_ + 1 =? GoString.len hostport then
           Some (inl (addrErr hostport missingPort))
         else if end_ + 1 =? i then
           host ← GoString.slice hostport 1 end_;
           Some (inr (host, 1, end_ + 1))
         else
           c ← GoString.at_ hostport (end_ + 1);
           if is_byte c ":" then Some (inl (addrErr hostport tooManyColons))
           else Some (inl (addrErr hostport missingPort))
       else
         host ← GoString.slice_to hostport i;
         if 0 <=? GoString.IndexByte host ":" then
           Some (inl (addrErr hostport tooManyColons))
         else Some (inr (host, 0, 0)));
    match step with
    | inl r => Some r
    | inr (host, j, k) =>
        sj ← GoString.slice_from hostport j;
        if 0 <=? GoString.IndexByte sj "[" then
          Some (addrErr hostport "unexpected '[' in address")
        else
          sk ← GoString.slice_from hostport k;
          if 0 <=? GoString.IndexByte sk "]" then
            Some (addrErr hostport "unexpected ']' in address")
          else
            port ← GoString.slice_from hostport (i + 1);
            Some (host, port, None)
    end.

End net.

(** ** Package [attribute]: key/value labels *)

Module attribute.

Inductive Value :=
| STRING (s : string)
| INT64 (i : Z).

Record KeyValue := { Key : string; Value_ : Value }.

(** [k.String(v)] *)
Definition String_ (k : string) (v : string) : KeyValue :=
  {| Key := k; Value_ := STRING v |}.

(** [k.Int(v)] *)
Definition Int (k : string) (v : Z) : KeyValue :=
  {| Key := k; Value_ := INT64 v |}.

(** [attribute.NewSet(kvs...)]: the labels sorted by key, bytewise, by a
    stable sort, and then one label kept for each key, the last one given. *)
Fixpoint insert_stable (kv : KeyValue) (l : list KeyValue) : list KeyValue :=
  match l with
  | [] => [kv]
  | x :: l' =>
      if String.leb (Key kv) (Key x) then kv :: l
      else x :: insert_stable kv l'
  end.

Definition SortStable (kvs : list KeyValue) : list KeyValue :=
  fold_right insert_stable [] kvs.

Fixpoint last_value_wins (l : list KeyValue) : list KeyValue :=
  match l with
  | [] => []
  | x :: l' =>
      match l' with
      | [] => [x]
      | y :: _ =>
          if String.eqb (Key x) (Key y) then last_value_wins l'
          else x :: last_value_wins l'
      end
  end.

Definition NewSet (kvs : list KeyValue) : list KeyValue :=
  last_value_wins (SortStable kvs).

End attribute.

(** ** Package [net/http]: the request and response objects *)

Module http.

Inductive Context := Background | Ctx (id : positive).

Definition Header := list (string * list string).

(** The fields of [http.Request] that this code or its callers look at.
    [Host] is the target authority. *)
Record Request := {
  Method : string;
  URL : string;
  ReqHeader : Header;
  Host : string;
  ctx : option Context
}.

(** [Body] is an opaque handle on the body stream. *)
Record Response := {
  StatusCode : Z;
  RespHeader : Header;
  Body : positive
}.

End http.

(** ** The world a call runs in

    [*http.Request] and [*http.Response] are pointers: [None] is [nil], and
    the objects live in two stores that the wrapped dispatcher is free to
    update.  [mono] is the monotonic clock in nanoseconds.  Time passes
    inside the wrapped dispatcher, as it sees fit, and in every step of the
    transport that the trace records: the step [e] lasts [step_ns w e]
    nanoseconds.  [trace] lists, oldest first, what has been done so far by
    the code modelled here: each attribute extraction and each measurement
    handed to the histogram.  Of a measurement, [m_attrs] is the list the
    transport gives to [metric.WithAttributes] and [m_set] the attribute set
    made of it, which is what the histogram gets. *)

Definition ptr := option positive.

Record Measurement := {
  m_instrument : string;
  m_ctx : http.Context;
  m_value : spec_float;
  m_attrs : list attribute.KeyValue;
  m_set : list attribute.KeyValue
}.

Inductive Event :=
| EvClientRequest (req : ptr)
| EvClientResponse (res : ptr)
| EvRecord (m : Measurement).

Record World := {
  mono : Z;
  requests : gmap positive http.Request;
  responses : gmap positive http.Response;
  trace : list Event;
  step_ns : Event -> Z
}.

(** State and panic monad. *)
Definition M (A : Type) : Type := World -> option (A * World).

Definition ret {A} (a : A) : M A := fun w => Some (a, w).

Definition bind {A B} (m : M A) (k : A -> M B) : M B :=
  fun w => match m w with
           | Some (a, w') => k a w'
           | None => None
           end.

Definition panic {A} : M A := fun _ => None.

Definition lift {A} (o : option A) : M A :=
  fun w => match o with Some a => Some (a, w) | None => None end.

(** The world after the step [e]: one more event at the end of its trace,
    and the clock moved on by what the step lasts. *)
Definition log (e : Event) (w : World) : World :=
  {| mono := mono w + step_ns w e;
     requests := requests w; responses := responses w;
     trace := (trace w ++ [e])%list; step_ns := step_ns w |}.

Definition emit (e : Event) : M unit := fun w => Some (tt, log e w).

(** [*req], [*res]: a nil dereference panics. *)
Definition load_request (req : ptr) : M http.Request :=
  fun w => match req with
           | Some l => match requests w !! l with
                       | Some r => Some (r, w)
                       | None => None
                       end
           | None => None
           end.

Definition load_response (res : ptr) : M http.Response :=
  fun w => match res with
           | Some l => match responses w !! l with
                       | Some r => Some (r, w)
                       | None => None
                       end
           | None => None
           end.

Declare Scope go_scope.
Delimit Scope go_scope with go.
Notation "'let*' x ':=' m 'in' k" := (bind m (fun x => k))
  (at level 10, x pattern, m at level 100, k at level 200) : go_scope.
Notation "m ';;' k" := (bind m (fun _ => k))
  (at level 100, k at level 200, right associativity) : go_scope.

(** The measurements of a trace, oldest first. *)
Definition emitted (w : World) : list Measurement :=
  omap (fun e => match e with EvRecord m => Some m | _ => None end) (trace w).

(** The attribute extractions of a trace. *)
Definition is_extraction (e : Event) : bool :=
  match e with EvRecord _ => false | _ => true end.

Definition extractions (w : World) : list Event :=
  List.filter is_extraction (trace w).

(** ** Package [time] *)

Module time.

Definition Time := Z.       (* the monotonic reading, ns *)
Definition Duration := Z.   (* int64 ns *)

Definition Millisecond : Duration := 1000000.
Definition minDuration : Duration := - 2 ^ 63.
Definition maxDuration : Duration := 2 ^ 63 - 1.

(** [time.Now()] *)
Definition Now : M Time := fun w => Some (mono w, w).

(** [subMono(t, u)]: the difference, saturated to an [int64]. *)
Definition subMono (t u : Z) : Duration :=
  let d := t - u in
  if maxDuration <? d then maxDuration
  else if d <? minDuration then minDuration
  else d.

(** [time.Since(t)] *)
Definition Since (t : Time) : M Duration :=
  fun w => Some (subMono (mono w) t, w).

End time.

(** ** [float64] *)

Module float64.

Definition prec : Z := 53.
Definition emax : Z := 1024.

(** The conversion [float64(d)] of an [int64]: round to nearest even. *)
Definition of_int (d : Z) : spec_float := binary_normalize prec emax d 0 false.

Definition div (x y : spec_float) : spec_float := SFdiv prec emax x y.

Definition zero : spec_float := S754_zero false.

Definition leb (x y : spec_float) : bool := SFleb x y.

(** [x] is +0, a positive finite number or +Inf. *)
Definition is_nonneg (x : spec_float) : bool :=
  match x with
  | S754_zero false | S754_infinity false | S754_finite false _ _ => true
  | _ => false
  end.

End float64.

(** ** Package [metric] *)

Module metric.

(** A [Float64Histogram] is known by its name. *)
Definition Float64Histogram := string.

(** [h.Record(ctx, value, metric.WithAttributes(attrs...))] *)
Definition Record_ (h : Float64Histogram) (c : http.Context)
           (value : spec_float) (attrs : list attribute.KeyValue) : M unit :=
  emit (EvRecord {| m_instrument := h; m_ctx := c;
                    m_value := value; m_attrs := attrs;
                    m_set := attribute.NewSet attrs |}).

End metric.

(** ** Package [semconv]: the host/port splitter *)

Module semconv.

(** [splitHostPort(hostport)]: the named results [(host, port)], or a
    panic.  [host] starts as [""] and [port] as [-1]; a bare [return]
    returns their current values.  The short declaration
    [host, pStr, err := net.SplitHostPort(hostport)] sits in the scope of
    the named result [host], so it assigns to it. *)
Definition splitHostPort (hostport : string) : option (string * Z) :=
  let host := "" in
  let port := -1 in
  pre ←
    (if strings.HasPrefix hostport "[" then
       let addrEnd := strings.LastIndex hostport "]" in
       if addrEnd <? 0 then
         (* Invalid hostport. *)
         Some (Some (host, port))
       else
         tail ← GoString.slice_from hostport addrEnd;
         if strings.LastIndex tail ":" <? 0 then
           host ← GoString.slice hostport 1 addrEnd;
           Some (Some (host, port))
         else Some None
     else
       if strings.LastIndex hostport ":" <? 0 then
         Some (Some (hostport, port))
       else Some None);
  match pre with
  | Some r => Some r
  | None =>
      '(host, pStr, err) ← net.SplitHostPort hostport;
      match err with
      | Some _ => Some (host, port)
      | None =>
          let '(p, err) := strconv.ParseUint10 pStr 16 in
          match err with
          | Some _ => Some (host, port)
          | None => Some (host, strconv.int_of_uint64 p)
          end
      end
  end.

Definition ClientRequestDuration := "http.client.duration".
Definition HistogramMeasureUnitSeconds := "s".

(** The keys of [go.opentelemetry.io/otel/semconv/v1.21.0]. *)
Definition HTTPRequestMethodKey := "http.request.method".
Definition HTTPResponseStatusCodeKey := "http.response.status_code".
Definition ServerAddressKey := "server.address".

Record httpConv := {
  httpRequestMethodKey : string;
  httpResponseStatusCodeKey : string;
  serverAddressKey : string
}.

Definition hc : httpConv := {|
  httpRequestMethodKey := HTTPRequestMethodKey;
  httpResponseStatusCodeKey := HTTPResponseStatusCodeKey;
  serverAddressKey := ServerAddressKey
|}.

(** [ClientResponse(res)] *)
Definition ClientResponse (res : ptr) : M (list attribute.KeyValue) :=
  (emit (EvClientResponse res) ;;
   let attrs := [] in
   let* r := load_response res in
   if 0 <? http.StatusCode r then
     ret (attrs ++ [attribute.Int (httpRequestMethodKey hc) (http.StatusCode r)])%list
   else ret attrs)%go.

(** [c.peerName(address)]; [nil] is the empty slice. *)
Definition peerName (c : httpConv) (address : string)
  : option (list attribute.KeyValue) :=
  '(h, p) ← splitHostPort address;
  let n := 0 in
  let n := if negb (String.eqb h "")
           then (if 0 <? p then n + 1 + 1 else n + 1) else n in
  if n =? 0 then Some []
  else Some [attribute.String_ (serverAddressKey c) h].

(** [ClientRequest(req)] *)
Definition ClientRequest (req : ptr) : M (list attribute.KeyValue) :=
  (emit (EvClientRequest req) ;;
   let attrs := [] in
   let* r := load_request req in
   let attrs :=
     (attrs ++ [attribute.String_ (httpRequestMethodKey hc) (http.Method r)])%list in
   let* (peer, _) := lift (splitHostPort (http.Host r)) in
   if negb (String.eqb peer "") then
     let* pn := lift (peerName hc peer) in
     ret (attrs ++ pn)%list
   else ret attrs)%go.

End semconv.

(** ** Package [httpclient]: the measuring transport *)

Module httpclient.

(** [http.RoundTripper]: any dispatcher, acting on the world. *)
Definition RoundTripper := ptr -> M (ptr * option error).

Record Transport := {
  rt : RoundTripper;
  httpLatency : metric.Float64Histogram
}.

(** [r.Context()] *)
Definition Context (req : ptr) : M http.Context :=
  (let* r := load_request req in
   match http.ctx r with
   | Some c => ret c
   | None => ret http.Background
   end)%go.

(** [t.RoundTrip(r)] *)
Definition RoundTrip (t : Transport) (r : ptr) : M (ptr * option error) :=
  (let* startTime := time.Now in
   let* (res, err) := rt t r in
   match err with
   | Some _ => ret (res, err)
   | None =>
       let* reqAttrs := semconv.ClientRequest r in
       let* resAttrs := semconv.ClientResponse res in
       let attrs := (reqAttrs ++ resAttrs)%list in
       (* Use floating point division here for higher precision. *)
       let* since := time.Since startTime in
       let elapsedTime :=
         float64.div (float64.of_int since) (float64.of_int time.Millisecond) in
       let* c := Context r in
       metric.Record_ (httpLatency t) c elapsedTime attrs ;;
       ret (res, err)
   end)%go.

End httpclient.



(** ** A concrete run

    One request, a dispatcher that answers it after half a millisecond,
    and a dispatcher that fails. *)

Module Demo.

Definition request (host : string) : http.Request :=
  {| http.Method := "GET"; http.URL := "http://" ++ host ++ "/";
     http.ReqHeader := [("Accept", ["*/*"])]; http.Host := host;
     http.ctx := None |}.

Definition response (code : Z) : http.Response :=
  {| http.StatusCode := code; http.RespHeader := []; http.Body := 1%positive |}.

(** The world before the call: the request lives at address 1, and every
    step of the transport lasts a microsecond. *)
Definition world (host : string) : World :=
  {| mono := 1000; requests := {[ 1%positive := request host ]};
     responses := ∅; trace := []; step_ns := fun _ => 1000 |}.

(** Answers with status [code] at address 7, 500 microseconds later. *)
Definition answered (code : Z) (w : World) : World :=
  {| mono := mono w + 500000; requests := requests w;
     responses := <[ 7%positive := response code ]> (responses w);
     trace := trace w; step_ns := step_ns w |}.

Definition answer (code : Z) : httpclient.RoundTripper :=
  fun _ w => Some ((Some 7%positive, None), answered code w).

(** Fails after 3 microseconds, with no response. *)
Definition refused (w : World) : World :=
  {| mono := mono w + 3000; requests := requests w;
     responses := responses w; trace := trace w; step_ns := step_ns w |}.

Definition connection_refused : error := DispatchError "connection refused".

Definition refuse : httpclient.RoundTripper :=
  fun _ w => Some ((None, Some connection_refused), refused w).

Definition transport (base : httpclient.RoundTripper) : httpclient.Transport :=
  {| httpclient.rt := base;
     httpclient.httpLatency := semconv.ClientRequestDuration |}.

End Demo.

(** ** [NewTransport]

    [NewTransport] reads two pieces of process-wide state: the default
    dispatcher [http.DefaultTransport], and the global meter provider, of
    which the code uses one answer: the histogram and the error it returns
    for a scope name, an instrument name and a unit. *)

Module httpclientNew.
Import httpclient.

Definition instrumentationName : string :=
  "github.com/wilsouza/otel-labs/otelhttpclient/httpclient".

Record Globals := {
  DefaultTransport : RoundTripper;
  Float64Histogram :
    string -> string -> string -> metric.Float64Histogram * option error
}.

(** [NewTransport(base)]; a nil [base] is [None], and the result [None] is
    [panic(err)]. *)
Definition NewTransport (g : Globals) (base : option RoundTripper)
  : option Transport :=
  let base := match base with
              | None => DefaultTransport g
              | Some b => b
              end in
  let '(h, err) :=
    Float64Histogram g instrumentationName semconv.ClientRequestDuration
      semconv.HistogramMeasureUnitSeconds in
  match err with
  | Some _ => None
  | None => Some {| rt := base; httpLatency := h |}
  end.

(** Globals for a concrete run: the meter hands out a histogram called by
    the instrument's name. *)
Definition demo_globals (default : RoundTripper) : Globals :=
  {| DefaultTransport := default;
     Float64Histogram := fun _ name _ => (name, None) |}.

End httpclientNew.

(** * Facts about Go strings *)

Module GoStringFacts.
Import GoString.

Lemma len_nonneg s : 0 <= len s.
Proof. unfold len. lia. Qed.

Lemma len_cons a s : len (String a s) = len s + 1.
Proof. unfold len. cbn [String.length]. lia. Qed.

Lemma at_zero a s : at_ (String a s) 0 = Some a.
Proof.
  unfold at_. rewrite len_cons. pose proof (len_nonneg s).
  replace (0 <? len s + 1) with true by (symmetry; apply Z.ltb_lt; lia).
  reflexivity.
Qed.

Lemma at_succ a s j : 0 <= j -> at_ (String a s) (j + 1) = at_ s j.
Proof.
  intros Hj. unfold at_. rewrite len_cons.
  replace (Z.to_nat (j + 1)) with (S (Z.to_nat j)) by lia.
  cbn [String.get].
  destruct (Z.ltb_spec j (len s)), (Z.ltb_spec (j + 1) (len s + 1));
    destruct (Z.leb_spec 0 j), (Z.leb_spec 0 (j + 1)); try lia; reflexivity.
Qed.

Lemma at_neg s j : j < 0 -> at_ s j = None.
Proof.
  intros Hj. unfold at_. destruct (Z.leb_spec 0 j); [lia | reflexivity].
Qed.

Lemma at_cons_pos a s j : 0 < j -> at_ (String a s) j = at_ s (j - 1).
Proof.
  intros Hj. replace j with ((j - 1) + 1) at 1 by lia. apply at_succ. lia.
Qed.

Lemma at_Some_range s j c : at_ s j = Some c -> 0 <= j < len s.
Proof.
  unfold at_. destruct (Z.leb_spec 0 j), (Z.ltb_spec j (len s));
    cbn; intros; (lia || discriminate).
Qed.

Lemma at_in_range s j : 0 <= j < len s -> exists c, at_ s j = Some c.
Proof.
  revert j. induction s as [|a s IH]; intros j Hj.
  - unfold len in Hj. cbn in Hj. lia.
  - rewrite len_cons in Hj. destruct (Z.eq_dec j 0) as [->|Hne].
    + exists a. apply at_zero.
    + rewrite at_cons_pos by lia. apply IH. lia.
Qed.

(** *** Byte searches *)

Lemma IndexByte_range s c : -1 <= IndexByte s c < len s.
Proof.
  induction s as [|a s IH]; cbn [IndexByte].
  - unfold len. cbn. lia.
  - rewrite len_cons. destruct (Ascii.eqb a c).
    + pose proof (len_nonneg s). lia.
    + destruct (Z.ltb_spec (IndexByte s c) 0); lia.
Qed.

Lemma LastIndexByte_range s c : -1 <= LastIndexByte s c < len s.
Proof.
  induction s as [|a s IH]; cbn [LastIndexByte].
  - unfold len. cbn. lia.
  - rewrite len_cons. destruct (Z.leb_spec 0 (LastIndexByte s c)).
    + lia.
    + pose proof (len_nonneg s). destruct (Ascii.eqb a c); lia.
Qed.

Lemma IndexByte_found s c :
  0 <= IndexByte s c -> at_ s (IndexByte s c) = Some c.
Proof.
  induction s as [|a s IH]; cbn [IndexByte].
  - lia.
  - destruct (Ascii.eqb_spec a c) as [->|Hne].
    + intros _. apply at_zero.
    + destruct (Z.ltb_spec (IndexByte s c) 0); [lia|].
      intros _. rewrite at_succ by lia. apply IH. lia.
Qed.

Lemma LastIndexByte_found s c :
  0 <= LastIndexByte s c -> at_ s (LastIndexByte s c) = Some c.
Proof.
  induction s as [|a s IH]; cbn [LastIndexByte].
  - lia.
  - destruct (Z.leb_spec 0 (LastIndexByte s c)).
    + intros _. rewrite at_succ by lia. apply IH. lia.
    + destruct (Ascii.eqb_spec a c) as [->|Hne]; [|lia].
      intros _. apply at_zero.
Qed.

(** Every occurrence lies between the first and the last one. *)
Lemma IndexByte_le s c j : at_ s j = Some c -> 0 <= IndexByte s c <= j.
Proof.
  revert j. induction s as [|a s IH]; intros j Hj.
  - apply at_Some_range in Hj. unfold len in Hj. cbn in Hj. lia.
  - cbn [IndexByte]. pose proof (at_Some_range _ _ _ Hj) as Hr.
    destruct (Ascii.eqb_spec a c) as [->|Hne]; [lia|].
    destruct (Z.eq_dec j 0) as [->|Hj0].
    + rewrite at_zero in Hj. congruence.
    + rewrite at_cons_pos in Hj by lia. apply IH in Hj.
      destruct (Z.ltb_spec (IndexByte s c) 0); lia.
Qed.

Lemma LastIndexByte_ge s c j : at_ s j = Some c -> j <= LastIndexByte s c.
Proof.
  revert j. induction s as [|a s IH]; intros j Hj.
  - apply at_Some_range in Hj. unfold len in Hj. cbn in Hj. lia.
  - cbn [LastIndexByte]. pose proof (at_Some_range _ _ _ Hj) as Hr.
    destruct (Z.eq_dec j 0) as [->|Hj0].
    + rewrite at_zero in Hj. injection Hj as ->.
      rewrite Ascii.eqb_refl.
      destruct (Z.leb_spec 0 (LastIndexByte s c)); lia.
    + rewrite at_cons_pos in Hj by lia. apply IH in Hj.
      destruct (Z.leb_spec 0 (LastIndexByte s c)); lia.
Qed.

Lemma IndexByte_LastIndexByte s c :
  0 <= IndexByte s c -> IndexByte s c <= LastIndexByte s c.
Proof. intros H. apply LastIndexByte_ge, IndexByte_found, H. Qed.

(** *** Slices *)

Lemma slice_in_range s lo hi :
  0 <= lo <= hi -> hi <= len s -> exists t, slice s lo hi = Some t.
Proof.
  intros H1 H2. unfold slice.
  destruct (Z.leb_spec 0 lo), (Z.leb_spec lo hi), (Z.leb_spec hi (len s));
    try lia. cbn. eauto.
Qed.

Lemma slice_Some_range s lo hi t :
  slice s lo hi = Some t -> 0 <= lo <= hi /\ hi <= len s.
Proof.
  unfold slice.
  destruct (Z.leb_spec 0 lo), (Z.leb_spec lo hi), (Z.leb_spec hi (len s));
    cbn; intros; (lia || discriminate).
Qed.

Lemma substring_length n m s :
  (n + m <= String.length s)%nat -> String.length (substring n m s) = m.
Proof.
  revert n m. induction s as [|a s IH]; intros n m H; cbn in H.
  - assert (n = 0%nat) by lia. assert (m = 0%nat) by lia. subst. reflexivity.
  - destruct n as [|n]; cbn.
    + destruct m as [|m]; cbn; [reflexivity|]. f_equal. apply IH. lia.
    + apply IH. lia.
Qed.

Lemma slice_len s lo hi t : slice s lo hi = Some t -> len t = hi - lo.
Proof.
  intros H. pose proof (slice_Some_range _ _ _ _ H) as [H1 H2].
  unfold slice in H.
  destruct ((0 <=? lo) && (lo <=? hi) && (hi <=? len s)); [|discriminate].
  injection H as <-. unfold len in *. rewrite substring_length; lia.
Qed.

Lemma slice_at s lo hi t j :
  slice s lo hi = Some t -> 0 <= j < hi - lo -> at_ t j = at_ s (lo + j).
Proof.
  intros H Hj. pose proof (slice_Some_range _ _ _ _ H) as [H1 H2].
  pose proof (slice_len _ _ _ _ H) as Hl.
  unfold at_.
  destruct (Z.leb_spec 0 j), (Z.ltb_spec j (len t)); try lia.
  destruct (Z.leb_spec 0 (lo + j)), (Z.ltb_spec (lo + j) (len s)); try lia.
  cbn. unfold slice in H.
  destruct ((0 <=? lo) && (lo <=? hi) && (hi <=? len s)); [|discriminate].
  injection H as <-.
  rewrite substring_correct1 by lia. f_equal. lia.
Qed.

Lemma HasPrefix_bracket s :
  strings.HasPrefix s "[" = true <-> at_ s 0 = Some "["%char.
Proof.
  unfold strings.HasPrefix. destruct s as [|a s]; cbn [String.prefix].
  - split; [discriminate|]. intros H. apply at_Some_range in H.
    unfold len in H. cbn in H. lia.
  - rewrite at_zero. destruct (ascii_dec "[" a) as [<-|Hne].
    + split; [reflexivity|]. intros _. destruct s; reflexivity.
    + split; [discriminate|]. congruence.
Qed.

End GoStringFacts.

(** * Facts about [strconv.ParseUint] *)

Module strconvFacts.
Import strconv.

Lemma u64_nonneg z : 0 <= u64 z.
Proof. unfold u64. apply Z.mod_pos_bound. lia. Qed.

(** The accumulator never leaves [0..maxVal]. *)
Lemma ParseUint_loop_bound s0 base cutoff maxVal s :
  forall n m,
    0 <= n <= maxVal ->
    ParseUint_loop s0 base cutoff maxVal s n = inr m ->
    0 <= m <= maxVal.
Proof.
  induction s as [|ch rest IH]; intros n m Hn; cbn [ParseUint_loop].
  - intros [= <-]. exact Hn.
  - set (c := byte_of ch).
    destruct (if (48 <=? c) && (c <=? 57) then Some (c - 48)
              else if (97 <=? lower c) && (lower c <=? 122)
                   then Some (lower c - 97 + 10) else None) as [d|];
      [|discriminate].
    destruct (base <=? d); [discriminate|].
    destruct (cutoff <=? n); [discriminate|].
    destruct (u64 (u64 (n * base) + d) <? u64 (n * base)); [discriminate|].
    destruct (Z.ltb_spec maxVal (u64 (u64 (n * base) + d))) as [|H2];
      [discriminate|]. cbn [orb].
    apply IH. split; [apply u64_nonneg | exact H2].
Qed.

(** A successful 16-bit parse is a port number. *)
Lemma ParseUint10_16_bound s p :
  ParseUint10 s 16 = (p, None) -> 0 <= p <= 65535.
Proof.
  unfold ParseUint10. destruct (String.eqb s ""); [discriminate|].
  cbn [Z.eqb orb]. change ((16 <? 0) || (64 <? 16)) with false. cbv iota.
  change (u64 (u64 (Z.shiftl 1 16) - 1)) with 65535.
  destruct (ParseUint_loop s 10 (maxUint64 / 10 + 1) 65535 s 0)
    as [[v e]|n] eqn:E; [discriminate|].
  intros [= <-]. eapply ParseUint_loop_bound; [|exact E]. lia.
Qed.

Lemma int_of_uint64_small p : 0 <= p <= 65535 -> int_of_uint64 p = p.
Proof.
  intros H. unfold int_of_uint64.
  destruct (Z.ltb_spec p (2 ^ 63)); [reflexivity | lia].
Qed.

End strconvFacts.

(** * Facts about [net.SplitHostPort] *)

Module netFacts.
Import GoString GoStringFacts.

(** A string that starts with an opening bracket has its closing
    bracket, if any, at offset 1 or later. *)
Lemma bracket_first_then_close s i :
  at_ s 0 = Some "["%char -> at_ s i = Some "]"%char -> 1 <= i.
Proof.
  intros H0 Hi. pose proof (at_Some_range _ _ _ Hi).
  destruct (Z.eq_dec i 0) as [->|]; [congruence | lia].
Qed.

(** [net.SplitHostPort] never indexes or slices out of range. *)
Lemma SplitHostPort_total hostport :
  exists r, net.SplitHostPort hostport = Some r.
Proof.
  unfold net.SplitHostPort.
  pose proof (LastIndexByte_range hostport ":") as Hi.
  destruct (Z.ltb_spec (LastIndexByte hostport ":") 0) as [|Hi0]; [eauto|].
  destruct (at_in_range hostport 0 ltac:(lia)) as [c0 Hc0].
  rewrite Hc0. cbn [mbind option_bind].
  unfold net.is_byte.
  destruct (Ascii.eqb_spec c0 "[") as [->|Hc].
  - pose proof (IndexByte_range hostport "]") as He.
    destruct (Z.ltb_spec (IndexByte hostport "]") 0) as [|He0];
      [cbn; eauto|].
    destruct (Z.eqb_spec (IndexByte hostport "]" + 1) (len hostport));
      [cbn; eauto|].
    pose proof (bracket_first_then_close _ _ Hc0
                  (IndexByte_found _ _ He0)) as H1.
    destruct (Z.eqb_spec (IndexByte hostport "]" + 1)
                         (LastIndexByte hostport ":")) as [Hei|Hei].
    + destruct (slice_in_range hostport 1 (IndexByte hostport "]")
                  ltac:(lia) ltac:(lia)) as [host ->].
      cbn [mbind option_bind].
      destruct (slice_in_range hostport 1 (len hostport)
                  ltac:(lia) ltac:(lia)) as [sj Hsj].
      unfold slice_from. rewrite Hsj. cbn [mbind option_bind].
      destruct (0 <=? IndexByte sj "["); [eauto|].
      destruct (slice_in_range hostport (IndexByte hostport "]" + 1)
                  (len hostport) ltac:(lia) ltac:(lia)) as [sk ->].
      cbn [mbind option_bind].
      destruct (0 <=? IndexByte sk "]"); [eauto|].
      destruct (slice_in_range hostport (LastIndexByte hostport ":" + 1)
                  (len hostport) ltac:(lia) ltac:(lia)) as [port ->].
      cbn. eauto.
    + destruct (at_in_range hostport (IndexByte hostport "]" + 1)
                  ltac:(lia)) as [c ->].
      cbn [mbind option_bind]. destruct (Ascii.eqb c ":"); cbn; eauto.
  - unfold slice_to.
    destruct (slice_in_range hostport 0 (LastIndexByte hostport ":")
                ltac:(lia) ltac:(lia)) as [host ->].
    cbn [mbind option_bind].
    destruct (0 <=? IndexByte host ":"); [cbn; eauto|].
    cbn [mbind option_bind]. unfold slice_from.
    destruct (slice_in_range hostport 0 (len hostport)
                ltac:(lia) ltac:(lia)) as [sj ->].
    cbn [mbind option_bind].
    destruct (0 <=? IndexByte sj "["); [eauto|].
    destruct (0 <=? IndexByte sj "]"); [eauto|].
    destruct (slice_in_range hostport (LastIndexByte hostport ":" + 1)
                (len hostport) ltac:(lia) ltac:(lia)) as [port ->].
    cbn. eauto.
Qed.

(** When [net.SplitHostPort] succeeds there is a colon, and in the
    bracket form the last closing bracket sits just before the last
    colon. *)
Lemma SplitHostPort_ok_inv hostport host pStr :
  net.SplitHostPort hostport = Some (host, pStr, None) ->
  0 <= LastIndexByte hostport ":" /\
  (at_ hostport 0 = Some "["%char ->
   0 <= LastIndexByte hostport "]" < LastIndexByte hostport ":").
Proof.
  unfold net.SplitHostPort.
  pose proof (LastIndexByte_range hostport ":") as Hi.
  destruct (Z.ltb_spec (LastIndexByte hostport ":") 0) as [|Hi0];
    [discriminate|].
  destruct (at_ hostport 0) as [c0|] eqn:Hc0; [|discriminate].
  cbn [mbind option_bind]. unfold net.is_byte.
  destruct (Ascii.eqb_spec c0 "[") as [->|Hc].
  - destruct (Z.ltb_spec (IndexByte hostport "]") 0) as [|He0];
      [discriminate|].
    destruct (Z.eqb_spec (IndexByte hostport "]" + 1) (len hostport));
      [discriminate|].
    destruct (Z.eqb_spec (IndexByte hostport "]" + 1)
                         (LastIndexByte hostport ":")) as [Hei|Hei].
    + destruct (slice hostport 1 (IndexByte hostport "]")); [|discriminate].
      cbn [mbind option_bind].
      destruct (slice_from hostport 1) as [sj|]; [|discriminate].
      cbn [mbind option_bind].
      destruct (0 <=? IndexByte sj "["); [discriminate|].
      destruct (slice_from hostport (IndexByte hostport "]" + 1))
        as [sk|] eqn:Hsk; [|discriminate].
      cbn [mbind option_bind].
      destruct (Z.leb_spec 0 (IndexByte sk "]")) as [|Hk]; [discriminate|].
      intros _. split; [exact Hi0|]. intros _.
      pose proof (IndexByte_LastIndexByte hostport "]" He0) as Hle.
      split; [lia|].
      pose proof (LastIndexByte_range hostport "]") as Hr.
      destruct (Z.lt_ge_cases (LastIndexByte hostport "]")
                  (LastIndexByte hostport ":")) as [|Hge]; [assumption|].
      exfalso.
      assert (Hat : at_ sk (LastIndexByte hostport "]"
                            - (IndexByte hostport "]" + 1))
                    = Some "]"%char).
      { unfold slice_from in Hsk.
        rewrite (slice_at _ _ _ _ _ Hsk) by lia.
        replace (IndexByte hostport "]" + 1 +
                 (LastIndexByte hostport "]" - (IndexByte hostport "]" + 1)))
          with (LastIndexByte hostport "]") by lia.
        apply LastIndexByte_found. lia. }
      apply IndexByte_le in Hat. lia.
    + destruct (at_ hostport (IndexByte hostport "]" + 1)) as [c|];
        [|discriminate].
      cbn [mbind option_bind]. destruct (Ascii.eqb c ":"); discriminate.
  - intros _. split; [exact Hi0|]. congruence.
Qed.

End netFacts.

(** * Facts about [splitHostPort] *)

Module semconvFacts.
Import GoString GoStringFacts.

(** The full parse, which [splitHostPort] reaches once its two cheap
    checks have let the input through. *)
Lemma full_parse_total hostport :
  exists host port,
    ('(host, pStr, err) ← net.SplitHostPort hostport;
     match err with
     | Some _ => Some (host, -1)
     | None =>
         let '(p, err) := strconv.ParseUint10 pStr 16 in
         match err with
         | Some _ => Some (host, -1)
         | None => Some (host, strconv.int_of_uint64 p)
         end
     end) = Some (host, port) /\
    (port = -1 \/ 0 <= port <= 65535).
Proof.
  destruct (netFacts.SplitHostPort_total hostport) as [[[host pStr] err] ->].
  cbn [mbind option_bind].
  destruct err as [e|]; [eauto|].
  destruct (strconv.ParseUint10 pStr 16) as [p [e|]] eqn:E; [eauto|].
  apply strconvFacts.ParseUint10_16_bound in E.
  rewrite strconvFacts.int_of_uint64_small by exact E. eauto.
Qed.

Lemma splitHostPort_returns (hostport : string) :
  exists host port,
    semconv.splitHostPort hostport = Some (host, port) /\
    (port = -1 \/ 0 <= port <= 65535).
Proof.
  unfold semconv.splitHostPort.
  destruct (strings.HasPrefix hostport "[") eqn:Hp.
  - apply HasPrefix_bracket in Hp. unfold strings.LastIndex.
    pose proof (LastIndexByte_range hostport "]") as Hr.
    destruct (Z.ltb_spec (LastIndexByte hostport "]") 0) as [|H0];
      [cbn; eauto|].
    unfold slice_from.
    destruct (slice_in_range hostport (LastIndexByte hostport "]")
                (len hostport) ltac:(lia) ltac:(lia)) as [tail ->].
    cbn [mbind option_bind].
    destruct (LastIndexByte tail ":" <? 0).
    + pose proof (netFacts.bracket_first_then_close _ _ Hp
                    (LastIndexByte_found _ _ H0)) as H1.
      destruct (slice_in_range hostport 1 (LastIndexByte hostport "]")
                  ltac:(lia) ltac:(lia)) as [host ->].
      cbn. eauto.
    + cbn [mbind option_bind]. apply full_parse_total.
  - unfold strings.LastIndex.
    destruct (LastIndexByte hostport ":" <? 0); cbn [mbind option_bind].
    + eauto.
    + apply full_parse_total.
Qed.

End semconvFacts.

(** * The host/port splitter: claims *)

Module SplitHostPortSpec.
Import GoString GoStringFacts.

(** C10: [splitHostPort] returns on every input, never indexing or
    slicing out of range, and its port is the absent sentinel -1 or a
    number in 0..65535. *)
Theorem splitHostPort_total_port_range (hostport : string) :
  exists host port,
    semconv.splitHostPort hostport = Some (host, port) /\
    (port = -1 \/ 0 <= port <= 65535).
Proof. exact (semconvFacts.splitHostPort_returns hostport). Qed.

(** C4: the vectors for well-formed and bracket-form inputs. *)
Theorem splitHostPort_vectors :
  semconv.splitHostPort "example.com" = Some ("example.com", -1) /\
  semconv.splitHostPort "example.com:8080" = Some ("example.com", 8080) /\
  semconv.splitHostPort "[::1]" = Some ("::1", -1) /\
  semconv.splitHostPort "[::1]:443" = Some ("::1", 443) /\
  semconv.splitHostPort "[::1%eth0]:443" = Some ("::1%eth0", 443) /\
  semconv.splitHostPort ":9090" = Some ("", 9090) /\
  semconv.splitHostPort "[unterminated" = Some ("", -1) /\
  semconv.splitHostPort "" = Some ("", -1).
Proof. repeat split; vm_compute; reflexivity. Qed.

(** C2, as stated, fails: ["host:notaport"] passes the full host:port
    split, its port text does not parse, and the host found by the split
    is returned with the absent port. *)
Lemma splitHostPort_notaport_keeps_host :
  net.SplitHostPort "host:notaport" = Some ("host", "notaport", None) /\
  strconv.ParseUint10 "notaport" 16
    = (0, Some (NumError "ParseUint" "notaport" ErrSyntax)) /\
  semconv.splitHostPort "host:notaport" = Some ("host", -1) /\
  semconv.splitHostPort "host:notaport" <> Some ("", -1).
Proof. repeat split; vm_compute; congruence. Qed.

(** C2, amended: when the full host:port split succeeds and the port
    text does not parse as an unsigned 16-bit integer, [splitHostPort]
    returns the host of that split together with the absent port. *)
Theorem splitHostPort_unparsable_port (hostport host pStr : string) :
  net.SplitHostPort hostport = Some (host, pStr, None) ->
  snd (strconv.ParseUint10 pStr 16) <> None ->
  semconv.splitHostPort hostport = Some (host, -1).
Proof.
  intros Hs Hp.
  destruct (netFacts.SplitHostPort_ok_inv _ _ _ Hs) as [Hi Hb].
  unfold semconv.splitHostPort. unfold strings.LastIndex.
  assert (Hfull :
    ('(host, pStr, err) ← net.SplitHostPort hostport;
     match err with
     | Some _ => Some (host, -1)
     | None =>
         let '(p, err) := strconv.ParseUint10 pStr 16 in
         match err with
         | Some _ => Some (host, -1)
         | None => Some (host, strconv.int_of_uint64 p)
         end
     end) = Some (host, -1)).
  { rewrite Hs. cbn [mbind option_bind].
    destruct (strconv.ParseUint10 pStr 16) as [p [e|]];
      [reflexivity | cbn in Hp; congruence]. }
  destruct (strings.HasPrefix hostport "[") eqn:Hpre.
  - apply HasPrefix_bracket in Hpre. specialize (Hb Hpre).
    pose proof (LastIndexByte_range hostport ":") as Hr.
    destruct (Z.ltb_spec (LastIndexByte hostport "]") 0) as [|H0]; [lia|].
    unfold slice_from.
    destruct (slice_in_range hostport (LastIndexByte hostport "]")
                (len hostport) ltac:(lia) ltac:(lia)) as [tail Ht].
    rewrite Ht. cbn [mbind option_bind].
    assert (Hat : at_ tail (LastIndexByte hostport ":"
                            - LastIndexByte hostport "]")
                  = Some ":"%char).
    { rewrite (slice_at _ _ _ _ _ Ht) by lia.
      replace (LastIndexByte hostport "]" +
               (LastIndexByte hostport ":" - LastIndexByte hostport "]"))
        with (LastIndexByte hostport ":") by lia.
      apply LastIndexByte_found. lia. }
    apply LastIndexByte_ge in Hat.
    destruct (Z.ltb_spec (LastIndexByte tail ":") 0); [lia|].
    cbn [mbind option_bind]. exact Hfull.
  - destruct (Z.ltb_spec (LastIndexByte hostport ":") 0); [lia|].
    cbn [mbind option_bind]. exact Hfull.
Qed.

Lemma splitHostPort_unparsable_port_witness :
  net.SplitHostPort "host:65536" = Some ("host", "65536", None) /\
  snd (strconv.ParseUint10 "65536" 16) <> None /\
  semconv.splitHostPort "host:65536" = Some ("host", -1).
Proof.
  assert (H1 : net.SplitHostPort "host:65536"
               = Some ("host", "65536", None)) by (vm_compute; reflexivity).
  assert (H2 : snd (strconv.ParseUint10 "65536" 16) <> None)
    by (vm_compute; discriminate).
  split; [exact H1|]. split; [exact H2|].
  exact (splitHostPort_unparsable_port "host:65536" "host" "65536" H1 H2).
Defined.

End SplitHostPortSpec.

(** * The attribute extractor *)

Module ExtractorFacts.

Lemma peerName_run (c : semconv.httpConv) (address : string) :
  exists pn,
    semconv.peerName c address = Some pn /\
    (pn = [] \/
     exists h, h <> "" /\
               pn = [attribute.String_ (semconv.serverAddressKey c) h]).
Proof.
  unfold semconv.peerName.
  destruct (semconvFacts.splitHostPort_returns address)
    as (h & p & -> & _).
  cbn [mbind option_bind].
  destruct (String.eqb_spec h "") as [->|Hne]; cbn [negb].
  - cbn. eauto.
  - destruct (0 <? p); cbn; eauto 6.
Qed.

(** What one run of [ClientRequest] on a live request returns. *)
Lemma ClientRequest_run (l : positive) (w : World) (req : http.Request) :
  requests w !! l = Some req ->
  exists server,
    semconv.ClientRequest (Some l) w
    = Some (attribute.String_ semconv.HTTPRequestMethodKey (http.Method req)
              :: server,
            log (EvClientRequest (Some l)) w) /\
    (server = [] \/
     exists h, h <> "" /\
               server = [attribute.String_ semconv.ServerAddressKey h]).
Proof.
  intros Hl. unfold semconv.ClientRequest, bind, emit, load_request, lift, ret.
  cbn [requests log]. rewrite Hl.
  destruct (semconvFacts.splitHostPort_returns (http.Host req))
    as (peer & port & -> & _).
  destruct (String.eqb peer ""); cbn [negb].
  - exists []. split; [reflexivity | left; reflexivity].
  - destruct (peerName_run semconv.hc peer) as (pn & -> & Hpn).
    exists pn. split; [reflexivity | exact Hpn].
Qed.

(** What one run of [ClientResponse] on a live response returns. *)
Lemma ClientResponse_run (l : positive) (w : World) (resp : http.Response) :
  responses w !! l = Some resp ->
  semconv.ClientResponse (Some l) w
  = Some (if 0 <? http.StatusCode resp
          then [attribute.Int semconv.HTTPRequestMethodKey
                  (http.StatusCode resp)]
          else [],
          log (EvClientResponse (Some l)) w).
Proof.
  intros Hl.
  unfold semconv.ClientResponse, bind, emit, load_response, ret.
  cbn [responses log]. rewrite Hl.
  destruct (0 <? http.StatusCode resp); reflexivity.
Qed.

(** The labels depend on the request object alone, not on the rest of
    the world. *)
Lemma ClientRequest_indep (l : positive) (w1 w2 : World) (req : http.Request) :
  requests w1 !! l = Some req ->
  requests w2 !! l = Some req ->
  fst <$> semconv.ClientRequest (Some l) w1
  = fst <$> semconv.ClientRequest (Some l) w2.
Proof.
  intros H1 H2.
  unfold semconv.ClientRequest, bind, emit, load_request, lift, ret.
  cbn [requests log]. rewrite H1, H2.
  destruct (semconv.splitHostPort (http.Host req)) as [[peer port]|];
    [|reflexivity].
  destruct (negb (String.eqb peer "")); [|reflexivity].
  destruct (semconv.peerName semconv.hc peer); reflexivity.
Qed.

(** The part of the server-address rule that holds: an empty split host
    gives no label. *)
Lemma ClientRequest_empty_host (l : positive) (w : World)
      (req : http.Request) (port : Z) :
  requests w !! l = Some req ->
  semconv.splitHostPort (http.Host req) = Some ("", port) ->
  fst <$> semconv.ClientRequest (Some l) w
  = Some [attribute.String_ semconv.HTTPRequestMethodKey (http.Method req)].
Proof.
  intros Hl Hs.
  unfold semconv.ClientRequest, bind, emit, load_request, lift, ret.
  cbn [requests log]. rewrite Hl, Hs. reflexivity.
Qed.

(** Whenever the status code is positive, the request labels followed by
    the response labels hold the method key twice. *)
Lemma combined_keys_collide (l lres : positive) (w : World)
      (req : http.Request) (resp : http.Response) :
  requests w !! l = Some req ->
  responses w !! lres = Some resp ->
  0 < http.StatusCode resp ->
  exists a b wa wb,
    semconv.ClientRequest (Some l) w = Some (a, wa) /\
    semconv.ClientResponse (Some lres) wa = Some (b, wb) /\
    ~ NoDup (map attribute.Key (a ++ b)%list).
Proof.
  intros Hq Hp Hcode.
  destruct (ClientRequest_run l w req Hq) as (server & Hrun & _).
  pose proof (ClientResponse_run lres (log (EvClientRequest (Some l)) w)
                resp Hp) as Hresp.
  destruct (Z.ltb_spec 0 (http.StatusCode resp)) as [_|]; [|lia].
  eexists _, _, _, _. split; [exact Hrun|]. split; [exact Hresp|].
  cbn [map app attribute.Key attribute.String_ attribute.Int].
  rewrite map_app. cbn [map attribute.Key attribute.Int].
  intros Hnd. apply NoDup_cons in Hnd as [Hn _]. apply Hn.
  apply elem_of_app. right. left.
Qed.

(** Extraction leaves the two object stores alone. *)
Lemma log_requests e w : requests (log e w) = requests w.
Proof. reflexivity. Qed.

Lemma log_responses e w : responses (log e w) = responses w.
Proof. reflexivity. Qed.

End ExtractorFacts.

(** * Facts about [float64] *)

Module float64Facts.
Import float64.

Lemma shr_1_nonneg mrs : 0 <= shr_m mrs -> 0 <= shr_m (shr_1 mrs).
Proof.
  destruct mrs as [m r s]. cbn [shr_m]. intros Hm.
  destruct m as [|[p|p|]|p]; cbn; lia.
Qed.

Lemma iter_shr_1_nonneg p :
  forall mrs, 0 <= shr_m mrs -> 0 <= shr_m (SpecFloat.iter_pos shr_1 p mrs).
Proof.
  induction p as [p IH|p IH|]; intros mrs Hm; cbn [SpecFloat.iter_pos].
  - apply IH, IH, shr_1_nonneg, Hm.
  - apply IH, IH, Hm.
  - apply shr_1_nonneg, Hm.
Qed.

Lemma shr_fexp_nonneg m e l :
  0 <= m -> 0 <= shr_m (fst (shr_fexp prec emax m e l)).
Proof.
  intros Hm. unfold shr_fexp, shr.
  assert (H0 : 0 <= shr_m (shr_record_of_loc m l))
    by (destruct l as [|[]]; exact Hm).
  destruct (fexp prec emax (Zdigits2 m + e) - e) as [|p|p]; cbn [fst].
  - exact H0.
  - apply iter_shr_1_nonneg, H0.
  - exact H0.
Qed.

Lemma round_nearest_even_nonneg mx lx :
  0 <= mx -> 0 <= round_nearest_even mx lx.
Proof.
  intros Hm. unfold round_nearest_even.
  destruct lx as [|[]]; try destruct (Z.even mx); lia.
Qed.

(** Rounding a non-negative mantissa with a clear sign bit gives +0, a
    positive number or +Inf, never NaN. *)
Lemma binary_round_aux_nonneg mx ex lx :
  0 <= mx -> is_nonneg (binary_round_aux prec emax false mx ex lx) = true.
Proof.
  intros Hm. unfold binary_round_aux.
  pose proof (shr_fexp_nonneg mx ex lx Hm) as H1.
  destruct (shr_fexp prec emax mx ex lx) as [mrs' e']. cbn [fst] in H1.
  pose proof (shr_fexp_nonneg
                (round_nearest_even (shr_m mrs') (loc_of_shr_record mrs'))
                e' loc_Exact (round_nearest_even_nonneg _ _ H1)) as H2.
  destruct (shr_fexp prec emax
              (round_nearest_even (shr_m mrs') (loc_of_shr_record mrs'))
              e' loc_Exact) as [mrs'' e'']. cbn [fst] in H2.
  destruct (shr_m mrs'') as [|m|m]; [reflexivity| |lia].
  destruct (e'' <=? emax - prec); reflexivity.
Qed.

Lemma of_int_nonneg d : 0 <= d -> is_nonneg (of_int d) = true.
Proof.
  intros Hd. unfold of_int, binary_normalize.
  destruct d as [|p|p]; [reflexivity| |lia].
  unfold binary_round.
  destruct (shl_align p 0 (fexp prec emax (Z.pos (digits2_pos p) + 0)))
    as [mz ez].
  apply binary_round_aux_nonneg. lia.
Qed.

Lemma SFdiv_core_binary_nonneg mx ex my ey :
  0 <= fst (fst (SFdiv_core_binary prec emax (Z.pos mx) ex (Z.pos my) ey)).
Proof.
  unfold SFdiv_core_binary.
  set (e' := Z.min _ _). set (s := ex - ey - e').
  set (m' := match s with
             | 0 => Z.pos mx
             | Z.pos _ => Z.shiftl (Z.pos mx) s
             | Z.neg _ => 0
             end).
  assert (Hm' : 0 <= m').
  { subst m'. destruct s; [lia| |lia]. apply Z.shiftl_nonneg. lia. }
  pose proof (Z_div_mod m' (Z.pos my) ltac:(lia)) as Hdm.
  destruct (Z.div_eucl m' (Z.pos my)) as [q r]. cbn [fst].
  destruct Hdm as [Heq Hr]. nia.
Qed.

(** Dividing a non-negative number by a positive finite one gives a
    non-negative number. *)
Lemma div_nonneg x my ey :
  is_nonneg x = true ->
  is_nonneg (div x (S754_finite false my ey)) = true.
Proof.
  unfold div. destruct x as [[]|[]| |[] mx ex]; cbn [is_nonneg SFdiv xorb];
    try discriminate; try reflexivity.
  intros _.
  pose proof (SFdiv_core_binary_nonneg mx ex my ey) as Hq.
  destruct (SFdiv_core_binary prec emax (Z.pos mx) ex (Z.pos my) ey)
    as [[mz ez] lz]. cbn [fst] in Hq.
  apply binary_round_aux_nonneg, Hq.
Qed.

Lemma is_nonneg_leb x : is_nonneg x = true -> leb zero x = true.
Proof. destruct x as [[]|[]| |[] m e]; cbn; congruence. Qed.

Lemma Millisecond_float :
  of_int time.Millisecond = S754_finite false 8589934592000000 (-33).
Proof. vm_compute. reflexivity. Qed.

(** The recorded value is never negative and never NaN when the clock
    did not run backwards. *)
Lemma elapsed_nonneg d :
  0 <= d ->
  leb zero (div (of_int d) (of_int time.Millisecond)) = true /\
  div (of_int d) (of_int time.Millisecond) <> S754_nan.
Proof.
  intros Hd. rewrite Millisecond_float.
  pose proof (div_nonneg _ 8589934592000000 (-33) (of_int_nonneg d Hd)) as H.
  split; [apply is_nonneg_leb, H|].
  intros E. rewrite E in H. discriminate.
Qed.

End float64Facts.


(** * [float64]: positive durations give positive numbers *)

Module float64PosFacts.
Import float64.

Lemma fexp_eq e : fexp prec emax e = Z.max (e - 53) (-1074).
Proof. reflexivity. Qed.

Lemma digits2_pos_size p : digits2_pos p = Pos.size p.
Proof. induction p; cbn; congruence. Qed.

Lemma Zdigits2_log2 m : 0 < m -> Zdigits2 m = Z.log2 m + 1.
Proof.
  destruct m as [|p|p]; try lia. intros _. cbn [Zdigits2].
  destruct p; cbn [digits2_pos Z.log2]; rewrite ?digits2_pos_size; lia.
Qed.

Lemma Zdigits2_pos m : 0 < m -> 1 <= Zdigits2 m.
Proof.
  intros H. rewrite Zdigits2_log2 by exact H.
  pose proof (Z.log2_nonneg m). lia.
Qed.

Lemma Zdigits2_mono a b : 0 < a -> a <= b -> Zdigits2 a <= Zdigits2 b.
Proof.
  intros Ha Hab. rewrite !Zdigits2_log2 by lia.
  pose proof (Z.log2_le_mono a b Hab). lia.
Qed.

Lemma Zdigits2_succ m : 0 < m -> Zdigits2 (m + 1) <= Zdigits2 m + 1.
Proof.
  intros H. rewrite !Zdigits2_log2 by lia.
  pose proof (Z.log2_succ_le m). unfold Z.succ in *. lia.
Qed.

Lemma Zdigits2_lower m : 0 < m -> 2 ^ (Zdigits2 m - 1) <= m.
Proof.
  intros H. rewrite Zdigits2_log2 by exact H.
  replace (Z.log2 m + 1 - 1) with (Z.log2 m) by lia.
  apply Z.log2_spec, H.
Qed.

Lemma Zdigits2_upper m : 0 < m -> m < 2 ^ Zdigits2 m.
Proof.
  intros H. rewrite Zdigits2_log2 by exact H.
  apply Z.log2_spec, H.
Qed.

Lemma Zdigits2_mul_pow2 m s :
  0 < m -> 0 <= s -> Zdigits2 (m * 2 ^ s) = Zdigits2 m + s.
Proof.
  intros Hm Hs.
  assert (0 < m * 2 ^ s) by (pose proof (Z.pow_pos_nonneg 2 s); nia).
  rewrite !Zdigits2_log2 by lia.
  rewrite Z.log2_mul_pow2 by lia. lia.
Qed.

(** *** Shifting right *)

Lemma shr_1_digits mrs :
  0 <= shr_m mrs ->
  Zdigits2 (shr_m (shr_1 mrs)) = Z.max 0 (Zdigits2 (shr_m mrs) - 1).
Proof.
  destruct mrs as [m r s]. cbn [shr_m]. intros Hm.
  destruct m as [|[p|p|]|p]; cbn [shr_1 shr_m Zdigits2 digits2_pos]; lia.
Qed.

Lemma iter_shr_1_digits p :
  forall mrs,
    0 <= shr_m mrs ->
    Zdigits2 (shr_m (SpecFloat.iter_pos shr_1 p mrs))
    = Z.max 0 (Zdigits2 (shr_m mrs) - Z.pos p).
Proof.
  induction p as [p IH|p IH|]; intros mrs Hm; cbn [SpecFloat.iter_pos].
  - rewrite IH by (apply float64Facts.iter_shr_1_nonneg,
                     float64Facts.shr_1_nonneg, Hm).
    rewrite IH by (apply float64Facts.shr_1_nonneg, Hm).
    rewrite shr_1_digits by exact Hm. lia.
  - rewrite IH by (apply float64Facts.iter_shr_1_nonneg, Hm).
    rewrite IH by exact Hm. lia.
  - apply shr_1_digits, Hm.
Qed.

Lemma nonneg_digits_pos m : 0 <= m -> 0 < Zdigits2 m -> 0 < m.
Proof. destruct m; cbn; lia. Qed.

(** A positive mantissa above the smallest subnormal stays positive, keeps
    its magnitude [digits + exponent], and gets an exponent that is at
    least [emin]. *)
Lemma shr_fexp_pos m e l :
  0 < m -> -1074 < Zdigits2 m + e ->
  0 < shr_m (fst (shr_fexp prec emax m e l)) /\
  Zdigits2 (shr_m (fst (shr_fexp prec emax m e l)))
  + snd (shr_fexp prec emax m e l) = Zdigits2 m + e /\
  -1074 <= snd (shr_fexp prec emax m e l).
Proof.
  intros Hm He. unfold shr_fexp, shr. rewrite fexp_eq.
  pose proof (Zdigits2_pos m Hm) as Hd.
  assert (H0 : shr_m (shr_record_of_loc m l) = m)
    by (destruct l as [|[]]; reflexivity).
  destruct (Z.max (Zdigits2 m + e - 53) (-1074) - e) as [|p|p] eqn:En;
    cbn [fst snd]; rewrite ?H0.
  - repeat split; lia.
  - assert (Hnn : 0 <= shr_m (shr_record_of_loc m l)) by lia.
    pose proof (iter_shr_1_digits p _ Hnn) as Hdig. rewrite H0 in Hdig.
    pose proof (float64Facts.iter_shr_1_nonneg p _ Hnn) as Hpos.
    split; [apply nonneg_digits_pos; [exact Hpos | lia]|].
    split; lia.
  - repeat split; lia.
Qed.

Lemma round_nearest_even_cases mx lx :
  round_nearest_even mx lx = mx \/ round_nearest_even mx lx = mx + 1.
Proof.
  unfold round_nearest_even.
  destruct lx as [|[]]; try destruct (Z.even mx); auto.
Qed.

(** Rounding a positive mantissa of moderate magnitude gives a positive
    finite number of about the same magnitude. *)
Lemma binary_round_aux_pos mx ex lx :
  0 < mx -> -1074 < Zdigits2 mx + ex -> Zdigits2 mx + ex <= 900 ->
  exists m e,
    binary_round_aux prec emax false mx ex lx = S754_finite false m e /\
    -1074 <= e /\
    Zdigits2 mx + ex <= Zdigits2 (Z.pos m) + e <= Zdigits2 mx + ex + 1.
Proof.
  intros Hm Hlo Hhi. unfold binary_round_aux.
  destruct (shr_fexp_pos mx ex lx Hm Hlo) as (H1 & H2 & H3).
  destruct (shr_fexp prec emax mx ex lx) as [mrs' e']. cbn [fst snd] in *.
  set (m2 := round_nearest_even (shr_m mrs') (loc_of_shr_record mrs')).
  assert (Hm2 : 0 < m2 /\ Zdigits2 (shr_m mrs') <= Zdigits2 m2
                          <= Zdigits2 (shr_m mrs') + 1).
  { subst m2.
    destruct (round_nearest_even_cases (shr_m mrs') (loc_of_shr_record mrs'))
      as [->| ->].
    - lia.
    - pose proof (Zdigits2_succ _ H1).
      pose proof (Zdigits2_mono (shr_m mrs') (shr_m mrs' + 1) H1 ltac:(lia)).
      lia. }
  destruct Hm2 as (Hm2 & Hd2).
  destruct (shr_fexp_pos m2 e' loc_Exact Hm2 ltac:(lia)) as (K1 & K2 & K3).
  destruct (shr_fexp prec emax m2 e' loc_Exact) as [mrs'' e''].
  cbn [fst snd] in *.
  destruct (shr_m mrs'') as [|m|m] eqn:Em; try lia.
  pose proof (Zdigits2_pos (Z.pos m) ltac:(lia)) as Hd3.
  change (emax - prec) with 971.
  destruct (Z.leb_spec e'' 971); [|lia].
  exists m, e''. split; [reflexivity|]. lia.
Qed.

Lemma digits2_pos_iter_xO p k :
  Z.pos (digits2_pos (Pos.iter xO p k)) = Z.pos (digits2_pos p) + Z.pos k.
Proof.
  induction k as [|k IH] using Pos.peano_ind.
  - cbn. lia.
  - rewrite Pos.iter_succ. cbn [digits2_pos]. lia.
Qed.

(** [float64(d)] of a positive [int64] is a positive finite number. *)
Lemma of_int_pos d :
  0 < d -> d < 2 ^ 63 ->
  exists m e,
    of_int d = S754_finite false m e /\ -1074 <= e /\
    1 <= Zdigits2 (Z.pos m) + e <= 64.
Proof.
  intros Hd Hu. destruct d as [|p|p]; try lia.
  unfold of_int, binary_normalize, binary_round.
  pose proof (Zdigits2_pos (Z.pos p) ltac:(lia)) as Hd1.
  assert (Hd2 : Zdigits2 (Z.pos p) <= 63).
  { destruct (Z.le_gt_cases (Zdigits2 (Z.pos p)) 63) as [|Hgt]; [assumption|].
    pose proof (Zdigits2_lower (Z.pos p) ltac:(lia)).
    pose proof (Z.pow_le_mono_r 2 63 (Zdigits2 (Z.pos p) - 1)
                  ltac:(lia) ltac:(lia)).
    lia. }
  cbn [Zdigits2] in Hd1, Hd2.
  assert (Hal : forall mz ez,
             shl_align p 0 (fexp prec emax (Z.pos (digits2_pos p) + 0))
             = (mz, ez) ->
             Zdigits2 (Z.pos mz) + ez = Z.pos (digits2_pos p)).
  { intros mz ez. unfold shl_align. rewrite fexp_eq.
    destruct (Z.max (Z.pos (digits2_pos p) + 0 - 53) (-1074) - 0)
      as [|k|k] eqn:Ek; intros [= <- <-]; cbn [Zdigits2].
    - lia.
    - lia.
    - rewrite digits2_pos_iter_xO. lia. }
  destruct (shl_align p 0 (fexp prec emax (Z.pos (digits2_pos p) + 0)))
    as [mz ez].
  specialize (Hal mz ez eq_refl).
  destruct (binary_round_aux_pos (Z.pos mz) ez loc_Exact
              ltac:(lia) ltac:(lia) ltac:(lia)) as (m & e & Hr & He & Hde).
  exists m, e. split; [exact Hr|]. lia.
Qed.

(** Dividing such a number by the [float64] of a million. *)
Lemma div_million_pos mx ex :
  -1074 <= ex -> 1 <= Zdigits2 (Z.pos mx) + ex <= 64 ->
  exists m e,
    div (S754_finite false mx ex) (S754_finite false 8589934592000000 (-33))
    = S754_finite false m e.
Proof.
  intros He Hd. unfold div. cbn [SFdiv xorb].
  unfold SFdiv_core_binary. rewrite fexp_eq.
  change (Zdigits2 8589934592000000) with 53.
  set (d1 := Zdigits2 (Z.pos mx)) in *.
  pose proof (Zdigits2_pos (Z.pos mx) ltac:(lia)) as Hd1. fold d1 in Hd1.
  replace (Z.min (Z.max (d1 + ex - (53 + -33) - 53) (-1074)) (ex - -33))
    with (Z.min (d1 + ex - 73) (ex + 33)) by lia.
  set (e' := Z.min (d1 + ex - 73) (ex + 33)).
  set (s := ex - -33 - e').
  assert (Hs : 0 <= s /\ 106 - d1 <= s) by (subst s e'; lia).
  set (m' := match s with
             | 0 => Z.pos mx
             | Z.pos _ => Z.shiftl (Z.pos mx) s
             | Z.neg _ => 0
             end).
  assert (Hm' : m' = Z.pos mx * 2 ^ s).
  { subst m'. destruct s as [|k|k] eqn:Es; try lia.
    apply Z.shiftl_mul_pow2. lia. }
  assert (Hdm : Zdigits2 m' = d1 + s)
    by (rewrite Hm'; apply Zdigits2_mul_pow2; lia).
  assert (Hpos : 0 < m')
    by (rewrite Hm'; pose proof (Z.pow_pos_nonneg 2 s); nia).
  assert (Hbig : 2 ^ 105 <= m').
  { pose proof (Zdigits2_lower m' Hpos) as Hl. rewrite Hdm in Hl.
    pose proof (Z.pow_le_mono_r 2 105 (d1 + s - 1) ltac:(lia) ltac:(lia)).
    lia. }
  pose proof (Z_div_mod m' 8589934592000000 ltac:(lia)) as Hq.
  destruct (Z.div_eucl m' 8589934592000000) as [q r].
  destruct Hq as [Heq Hr].
  assert (Hq0 : 0 < q) by nia.
  assert (Hqd : Zdigits2 q <= d1 + s).
  { rewrite <- Hdm. apply Zdigits2_mono; [exact Hq0 | nia]. }
  pose proof (Zdigits2_pos q Hq0) as Hq1.
  destruct (binary_round_aux_pos q e' (new_location 8589934592000000 r)
              Hq0 ltac:(subst e'; lia) ltac:(subst s e'; lia))
    as (m & e & Hres & _).
  exists m, e. exact Hres.
Qed.

(** The recorded value is +0 for no elapsed time and a positive finite
    number for any other duration an [int64] can hold. *)
Lemma elapsed_positive d :
  0 <= d -> d < 2 ^ 63 ->
  (d = 0 -> div (of_int d) (of_int time.Millisecond) = S754_zero false) /\
  (0 < d ->
   exists m e,
     div (of_int d) (of_int time.Millisecond) = S754_finite false m e).
Proof.
  intros Hd Hu. split.
  - intros ->. vm_compute. reflexivity.
  - intros Hpos. rewrite float64Facts.Millisecond_float.
    destruct (of_int_pos d Hpos Hu) as (mx & ex & -> & He & Hde).
    apply div_million_pos; assumption.
Qed.

End float64PosFacts.

(** * The measuring transport *)

Module TransportFacts.
Import httpclient.

Lemma subMono_nonneg t u : u <= t -> 0 <= time.subMono t u.
Proof.
  intros H. unfold time.subMono, time.maxDuration, time.minDuration.
  destruct (Z.ltb_spec (2 ^ 63 - 1) (t - u)); [lia|].
  destruct (Z.ltb_spec (t - u) (- 2 ^ 63)); lia.
Qed.

(** A failed dispatch: the result and the world are those of the
    dispatcher. *)
Lemma RoundTrip_failure_run (t : Transport) (r res : ptr) (e : error)
      (w w1 : World) :
  rt t r w = Some ((res, Some e), w1) ->
  RoundTrip t r w = Some ((res, Some e), w1).
Proof.
  intros H. unfold RoundTrip, bind, time.Now. rewrite H. reflexivity.
Qed.

(** A successful dispatch: two extractions, then one record. *)
Lemma RoundTrip_success_run (t : Transport) (lr lres : positive)
      (w w1 : World) (req : http.Request) (resp : http.Response) :
  rt t (Some lr) w = Some ((Some lres, None), w1) ->
  requests w1 !! lr = Some req ->
  responses w1 !! lres = Some resp ->
  exists reqAttrs resAttrs wa wb,
    semconv.ClientRequest (Some lr) w1 = Some (reqAttrs, wa) /\
    semconv.ClientResponse (Some lres) wa = Some (resAttrs, wb) /\
    wb = log (EvClientResponse (Some lres))
             (log (EvClientRequest (Some lr)) w1) /\
    RoundTrip t (Some lr) w
    = Some ((Some lres, None),
            log (EvRecord
                   {| m_instrument := httpLatency t;
                      m_ctx := match http.ctx req with
                               | Some c => c
                               | None => http.Background
                               end;
                      m_value :=
                        float64.div
                          (float64.of_int
                             (time.subMono (mono wb) (mono w)))
                          (float64.of_int time.Millisecond);
                      m_attrs := (reqAttrs ++ resAttrs)%list;
                      m_set :=
                        attribute.NewSet (reqAttrs ++ resAttrs)%list |}) wb).
Proof.
  intros Hrt Hreq Hresp.
  destruct (ExtractorFacts.ClientRequest_run lr w1 req Hreq)
    as (server & Hcr & _).
  pose proof (ExtractorFacts.ClientResponse_run lres
                (log (EvClientRequest (Some lr)) w1) resp Hresp) as Hcp.
  eexists _, _, _, _.
  split; [exact Hcr|]. split; [exact Hcp|]. split; [reflexivity|].
  unfold RoundTrip, bind at 1 2, time.Now. rewrite Hrt.
  unfold bind at 1. rewrite Hcr.
  unfold bind at 1. rewrite Hcp.
  unfold Context, time.Since, metric.Record_, bind, load_request, emit, ret.
  cbn [requests log mono]. rewrite Hreq.
  destruct (http.ctx req); reflexivity.
Qed.

Lemma emitted_log_record m w : emitted (log (EvRecord m) w) = (emitted w ++ [m])%list.
Proof. unfold emitted, log. cbn [trace]. rewrite omap_app. reflexivity. Qed.

Lemma emitted_log_request r w : emitted (log (EvClientRequest r) w) = emitted w.
Proof.
  unfold emitted, log. cbn [trace]. rewrite omap_app. cbn.
  apply app_nil_r.
Qed.

Lemma emitted_log_response r w : emitted (log (EvClientResponse r) w) = emitted w.
Proof.
  unfold emitted, log. cbn [trace]. rewrite omap_app. cbn.
  apply app_nil_r.
Qed.

End TransportFacts.

(** * The attribute extractor: claims *)

Module ExtractorSpec.

(** C1 does not hold of the code.  On a GET to example.com answered with
    status 200, the list handed to the histogram has the status code
    under the key of the request method, so that key occurs twice. *)
Theorem status_code_under_method_key :
  exists m w',
    httpclient.RoundTrip (Demo.transport (Demo.answer 200))
      (Some 1%positive) (Demo.world "example.com")
    = Some ((Some 7%positive, None), w') /\
    emitted w' = [m] /\
    m_attrs m
    = [attribute.String_ "http.request.method" "GET";
       attribute.String_ "server.address" "example.com";
       attribute.Int "http.request.method" 200] /\
    ~ NoDup (map attribute.Key (m_attrs m)).
Proof.
  eexists _, _. split; [vm_compute; reflexivity|].
  split; [vm_compute; reflexivity|].
  split; [reflexivity|].
  cbn. intros H. apply NoDup_cons in H as [Hn _]. apply Hn.
  right. left.
Qed.

(** C3 does not hold of the code.  The authority ["[::1]:443"] splits
    into the host ["::1"], but [peerName] splits that host once more,
    finds too many colons, and [ClientRequest] returns the method label
    alone.  For ["[a:1]"] the split host is ["a:1"] and the label
    carries ["a"]. *)
Theorem ipv6_server_address_dropped :
  semconv.splitHostPort "[::1]:443" = Some ("::1", 443) /\
  semconv.peerName semconv.hc "::1" = Some [] /\
  fst <$> semconv.ClientRequest (Some 1%positive) (Demo.world "[::1]:443")
  = Some [attribute.String_ "http.request.method" "GET"] /\
  semconv.splitHostPort "[a:1]" = Some ("a:1", -1) /\
  fst <$> semconv.ClientRequest (Some 1%positive) (Demo.world "[a:1]")
  = Some [attribute.String_ "http.request.method" "GET";
          attribute.String_ "server.address" "a"].
Proof. repeat split; vm_compute; reflexivity. Qed.

(** C8: the two extractions return the same labels in any two worlds
    that hold the same request and response objects, and running them a
    second time right after the first returns the same labels again. *)
Theorem extraction_deterministic (lr lres : positive) (w1 w2 : World)
        (req : http.Request) (resp : http.Response) :
  requests w1 !! lr = Some req ->
  requests w2 !! lr = Some req ->
  responses w1 !! lres = Some resp ->
  responses w2 !! lres = Some resp ->
  exists reqAttrs resAttrs,
    fst <$> semconv.ClientRequest (Some lr) w1 = Some reqAttrs /\
    fst <$> semconv.ClientRequest (Some lr) w2 = Some reqAttrs /\
    fst <$> semconv.ClientResponse (Some lres) w1 = Some resAttrs /\
    fst <$> semconv.ClientResponse (Some lres) w2 = Some resAttrs /\
    fst <$> (let* a := semconv.ClientRequest (Some lr) in
             let* b := semconv.ClientResponse (Some lres) in
             let* a' := semconv.ClientRequest (Some lr) in
             let* b' := semconv.ClientResponse (Some lres) in
             ret (a, b, a', b'))%go w1
    = Some (reqAttrs, resAttrs, reqAttrs, resAttrs).
Proof.
  intros Hq1 Hq2 Hp1 Hp2.
  destruct (ExtractorFacts.ClientRequest_run lr w1 req Hq1)
    as (server & Hrun & _).
  pose proof (ExtractorFacts.ClientRequest_indep lr w1 w2 req Hq1 Hq2) as Hi.
  exists (attribute.String_ semconv.HTTPRequestMethodKey (http.Method req)
            :: server),
         (if 0 <? http.StatusCode resp
          then [attribute.Int semconv.HTTPRequestMethodKey
                  (http.StatusCode resp)]
          else []).
  split; [rewrite Hrun; reflexivity|].
  split; [rewrite <- Hi, Hrun; reflexivity|].
  split; [rewrite (ExtractorFacts.ClientResponse_run _ _ _ Hp1); reflexivity|].
  split; [rewrite (ExtractorFacts.ClientResponse_run _ _ _ Hp2); reflexivity|].
  unfold bind at 1. rewrite Hrun.
  unfold bind at 1.
  rewrite (ExtractorFacts.ClientResponse_run lres _ resp)
    by (rewrite ExtractorFacts.log_responses; exact Hp1).
  unfold bind at 1.
  pose proof (ExtractorFacts.ClientRequest_indep lr w1
                (log (EvClientResponse (Some lres))
                     (log (EvClientRequest (Some lr)) w1)) req Hq1 Hq1) as Hi2.
  rewrite Hrun in Hi2. cbn [fmap option_fmap option_map fst] in Hi2.
  destruct (semconv.ClientRequest (Some lr)
              (log (EvClientResponse (Some lres))
                   (log (EvClientRequest (Some lr)) w1)))
    as [[a' wc]|] eqn:E2; [|discriminate].
  cbn [fmap option_fmap option_map fst] in Hi2. injection Hi2 as <-.
  assert (Hc : requests wc = requests w1 /\ responses wc = responses w1).
  { destruct (ExtractorFacts.ClientRequest_run lr
                (log (EvClientResponse (Some lres))
                     (log (EvClientRequest (Some lr)) w1)) req Hq1)
      as (server' & Hrun' & _).
    rewrite Hrun' in E2. injection E2 as _ <-. split; reflexivity. }
  unfold bind at 1.
  rewrite (ExtractorFacts.ClientResponse_run lres wc resp)
    by (rewrite (proj2 Hc); exact Hp1).
  reflexivity.
Qed.

Lemma extraction_deterministic_witness :
  exists reqAttrs resAttrs,
    fst <$> semconv.ClientRequest (Some 1%positive)
              (Demo.answered 200 (Demo.world "example.com:8080"))
    = Some reqAttrs /\
    fst <$> semconv.ClientRequest (Some 1%positive)
              (Demo.refused (Demo.answered 200 (Demo.world "example.com:8080")))
    = Some reqAttrs /\
    fst <$> semconv.ClientResponse (Some 7%positive)
              (Demo.answered 200 (Demo.world "example.com:8080"))
    = Some resAttrs /\
    fst <$> semconv.ClientResponse (Some 7%positive)
              (Demo.refused (Demo.answered 200 (Demo.world "example.com:8080")))
    = Some resAttrs /\
    fst <$> (let* a := semconv.ClientRequest (Some 1%positive) in
             let* b := semconv.ClientResponse (Some 7%positive) in
             let* a' := semconv.ClientRequest (Some 1%positive) in
             let* b' := semconv.ClientResponse (Some 7%positive) in
             ret (a, b, a', b'))%go
            (Demo.answered 200 (Demo.world "example.com:8080"))
    = Some (reqAttrs, resAttrs, reqAttrs, resAttrs).
Proof.
  apply (extraction_deterministic 1 7
           (Demo.answered 200 (Demo.world "example.com:8080"))
           (Demo.refused (Demo.answered 200 (Demo.world "example.com:8080")))
           (Demo.request "example.com:8080") (Demo.response 200));
    vm_compute; reflexivity.
Defined.

End ExtractorSpec.

(** * The measuring transport: claims *)

Module TransportSpec.
Import httpclient.

(** C5: when the wrapped dispatcher fails, [RoundTrip] returns its result
    and its error as they are and leaves the world as the dispatcher left
    it: nothing is recorded and no attribute is extracted.  This holds for
    any request and response pointers, nil included. *)
Theorem RoundTrip_failure (t : Transport) (r res : ptr) (e : error)
        (w w1 : World) :
  rt t r w = Some ((res, Some e), w1) ->
  exists w',
    RoundTrip t r w = Some ((res, Some e), w') /\
    w' = w1 /\
    emitted w' = emitted w1 /\
    extractions w' = extractions w1.
Proof.
  intros H. exists w1.
  split; [apply TransportFacts.RoundTrip_failure_run, H|].
  repeat split.
Qed.

Lemma RoundTrip_failure_witness :
  exists w',
    RoundTrip (Demo.transport Demo.refuse) (Some 1%positive)
      (Demo.world "example.com")
    = Some ((None, Some Demo.connection_refused), w') /\
    w' = Demo.refused (Demo.world "example.com") /\
    emitted w' = emitted (Demo.refused (Demo.world "example.com")) /\
    extractions w' = extractions (Demo.refused (Demo.world "example.com")).
Proof.
  apply (RoundTrip_failure (Demo.transport Demo.refuse) (Some 1%positive)
           None Demo.connection_refused (Demo.world "example.com")
           (Demo.refused (Demo.world "example.com"))).
  reflexivity.
Defined.

(** C6 does not hold as stated.  The clock is read again on line 72,
    after the attributes were built, so the recorded value is the time from
    call entry to that reading, not to the dispatcher's return.  Here the
    dispatcher took 500 microseconds and each of the two extractions one
    more: 0.502 is recorded, not 0.5. *)
Lemma RoundTrip_value_includes_extraction :
  exists m w',
    RoundTrip (Demo.transport (Demo.answer 200)) (Some 1%positive)
      (Demo.world "example.com")
    = Some ((Some 7%positive, None), w') /\
    emitted w' = [m] /\
    mono (Demo.answered 200 (Demo.world "example.com"))
    - mono (Demo.world "example.com") = 500000 /\
    m_value m
    = SFdiv 53 1024 (binary_normalize 53 1024 502000 0 false)
                    (binary_normalize 53 1024 1000000 0 false) /\
    m_value m
    <> SFdiv 53 1024 (binary_normalize 53 1024 500000 0 false)
                     (binary_normalize 53 1024 1000000 0 false).
Proof.
  eexists _, _. split; [vm_compute; reflexivity|].
  split; [vm_compute; reflexivity|].
  split; [vm_compute; reflexivity|].
  split; [vm_compute; reflexivity|].
  vm_compute. discriminate.
Qed.

(** C6, amended: when the wrapped dispatcher succeeds, [RoundTrip] hands
    exactly one measurement to its own histogram [httpLatency].  Its value
    is the binary64 quotient of the nanoseconds elapsed between call entry
    and the clock reading [now] of line 72, taken after the two extractions
    and so never before the dispatcher's return, by the nanoseconds of a
    millisecond; it is not negative (nor NaN) as long as the clock does not
    run backwards: +0 when no time has elapsed and a positive finite number
    otherwise, however short the time, so nothing is truncated away. *)
Theorem RoundTrip_success_one_measurement (t : Transport)
        (lr lres : positive) (w w1 : World)
        (req : http.Request) (resp : http.Response) :
  rt t (Some lr) w = Some ((Some lres, None), w1) ->
  requests w1 !! lr = Some req ->
  responses w1 !! lres = Some resp ->
  mono w <= mono w1 ->
  0 <= step_ns w1 (EvClientRequest (Some lr)) ->
  0 <= step_ns w1 (EvClientResponse (Some lres)) ->
  exists m w' now,
    RoundTrip t (Some lr) w = Some ((Some lres, None), w') /\
    emitted w' = (emitted w1 ++ [m])%list /\
    m_instrument m = httpLatency t /\
    now = mono w1 + step_ns w1 (EvClientRequest (Some lr))
          + step_ns w1 (EvClientResponse (Some lres)) /\
    mono w1 <= now /\
    m_value m
    = SFdiv 53 1024
        (binary_normalize 53 1024 (time.subMono now (mono w)) 0 false)
        (binary_normalize 53 1024 1000000 0 false) /\
    (now - mono w <= 2 ^ 63 - 1 -> time.subMono now (mono w) = now - mono w) /\
    SFleb (S754_zero false) (m_value m) = true /\
    m_value m <> S754_nan /\
    (time.subMono now (mono w) = 0 -> m_value m = S754_zero false) /\
    (0 < time.subMono now (mono w) ->
     exists mz ez, m_value m = S754_finite false mz ez).
Proof.
  intros Hrt Hreq Hresp Hclock Hs1 Hs2.
  destruct (TransportFacts.RoundTrip_success_run t lr lres w w1 req resp
              Hrt Hreq Hresp)
    as (reqAttrs & resAttrs & wa & wb & _ & _ & -> & Hrun).
  eexists _, _, _. split; [exact Hrun|].
  split.
  { rewrite TransportFacts.emitted_log_record,
      TransportFacts.emitted_log_response,
      TransportFacts.emitted_log_request. reflexivity. }
  split; [reflexivity|]. split; [reflexivity|].
  split; [lia|].
  cbn [m_value mono log step_ns].
  split; [reflexivity|].
  split.
  { intros Hfit. unfold time.subMono, time.maxDuration, time.minDuration.
    match goal with
    | |- (if ?a <? ?b then _ else _) = _ => destruct (Z.ltb_spec a b); [lia|]
    end.
    match goal with
    | |- (if ?a <? ?b then _ else _) = _ =>
        destruct (Z.ltb_spec a b); [lia | reflexivity]
    end. }
  match goal with
  | |- context [time.subMono ?a ?b] =>
      pose proof (TransportFacts.subMono_nonneg a b ltac:(lia)) as Hge;
      assert (Hlt : time.subMono a b < 2 ^ 63);
      [|destruct (float64Facts.elapsed_nonneg _ Hge) as [Hn1 Hn2];
        destruct (float64PosFacts.elapsed_positive _ Hge Hlt) as [Hz Hp]]
  end.
  { unfold time.subMono, time.maxDuration, time.minDuration.
    repeat match goal with
           | |- context [Z.ltb ?a ?b] => destruct (Z.ltb_spec a b)
           end; lia. }
  split; [exact Hn1|]. split; [exact Hn2|]. split; [exact Hz | exact Hp].
Qed.

Lemma RoundTrip_success_one_measurement_witness :
  exists m w' now,
    RoundTrip (Demo.transport (Demo.answer 200)) (Some 1%positive)
      (Demo.world "example.com")
    = Some ((Some 7%positive, None), w') /\
    emitted w'
    = (emitted (Demo.answered 200 (Demo.world "example.com")) ++ [m])%list /\
    m_instrument m = httpLatency (Demo.transport (Demo.answer 200)) /\
    now = mono (Demo.answered 200 (Demo.world "example.com"))
          + step_ns (Demo.answered 200 (Demo.world "example.com"))
              (EvClientRequest (Some 1%positive))
          + step_ns (Demo.answered 200 (Demo.world "example.com"))
              (EvClientResponse (Some 7%positive)) /\
    mono (Demo.answered 200 (Demo.world "example.com")) <= now /\
    m_value m
    = SFdiv 53 1024
        (binary_normalize 53 1024
           (time.subMono now (mono (Demo.world "example.com"))) 0 false)
        (binary_normalize 53 1024 1000000 0 false) /\
    (now - mono (Demo.world "example.com") <= 2 ^ 63 - 1 ->
     time.subMono now (mono (Demo.world "example.com"))
     = now - mono (Demo.world "example.com")) /\
    SFleb (S754_zero false) (m_value m) = true /\
    m_value m <> S754_nan /\
    (time.subMono now (mono (Demo.world "example.com")) = 0 ->
     m_value m = S754_zero false) /\
    (0 < time.subMono now (mono (Demo.world "example.com")) ->
     exists mz ez, m_value m = S754_finite false mz ez).
Proof.
  apply (RoundTrip_success_one_measurement
           (Demo.transport (Demo.answer 200)) 1 7
           (Demo.world "example.com")
           (Demo.answered 200 (Demo.world "example.com"))
           (Demo.request "example.com") (Demo.response 200)).
  - reflexivity.
  - vm_compute. reflexivity.
  - vm_compute. reflexivity.
  - vm_compute. discriminate.
  - vm_compute. discriminate.
  - vm_compute. discriminate.
Defined.

(** Half a millisecond is recorded as 0.5, not truncated to 0. *)
Example half_millisecond :
  float64.div (float64.of_int 500000) (float64.of_int time.Millisecond)
  = S754_finite false (2 ^ 52) (-53).
Proof. vm_compute. reflexivity. Qed.

(** C7 does not hold as stated of the set that the histogram gets.  On a
    GET to example.com answered with status 200 the set holds two labels:
    the status code under the method key, then the server address.  The
    verb is not in it, and a response label stands before a request
    label. *)
Lemma RoundTrip_emitted_set_loses_verb :
  exists m w',
    RoundTrip (Demo.transport (Demo.answer 200)) (Some 1%positive)
      (Demo.world "example.com")
    = Some ((Some 7%positive, None), w') /\
    emitted w' = [m] /\
    m_set m
    = [attribute.Int "http.request.method" 200;
       attribute.String_ "server.address" "example.com"] /\
    ~ In (attribute.String_ "http.request.method" "GET") (m_set m).
Proof.
  eexists _, _. split; [vm_compute; reflexivity|].
  split; [vm_compute; reflexivity|].
  split; [vm_compute; reflexivity|].
  cbn. intros [H|[H|[]]]; discriminate H.
Qed.

(** C7, amended: the list that the transport gives to
    [metric.WithAttributes] is the request labels followed by the response
    labels, and the request labels are the method label with the verb,
    always there and first, followed by at most one server-address label.
    The set the histogram gets is made of that list by [attribute.NewSet];
    its keys are in strictly increasing order, so there is one label for
    each key. *)
Theorem RoundTrip_attribute_order (t : Transport)
        (lr lres : positive) (w w1 : World)
        (req : http.Request) (resp : http.Response) :
  rt t (Some lr) w = Some ((Some lres, None), w1) ->
  requests w1 !! lr = Some req ->
  responses w1 !! lres = Some resp ->
  exists reqAttrs resAttrs wa wb server m w',
    semconv.ClientRequest (Some lr) w1 = Some (reqAttrs, wa) /\
    semconv.ClientResponse (Some lres) wa = Some (resAttrs, wb) /\
    RoundTrip t (Some lr) w = Some ((Some lres, None), w') /\
    emitted w' = (emitted w1 ++ [m])%list /\
    m_attrs m = (reqAttrs ++ resAttrs)%list /\
    m_set m = attribute.NewSet (m_attrs m) /\
    Sorted.StronglySorted
      (fun a b => String.ltb (attribute.Key a) (attribute.Key b) = true)
      (m_set m) /\
    reqAttrs
    = attribute.String_ semconv.HTTPRequestMethodKey (http.Method req)
        :: server /\
    (server = [] \/
     exists h, server = [attribute.String_ semconv.ServerAddressKey h]).
Proof.
  intros Hrt Hreq Hresp.
  destruct (TransportFacts.RoundTrip_success_run t lr lres w w1 req resp
              Hrt Hreq Hresp)
    as (reqAttrs & resAttrs & wa & wb & Hcr & Hcp & -> & Hrun).
  destruct (ExtractorFacts.ClientRequest_run lr w1 req Hreq)
    as (server & Hcr' & Hserver).
  rewrite Hcr' in Hcr. injection Hcr as <- <-.
  pose proof Hcp as Hcp'.
  rewrite (ExtractorFacts.ClientResponse_run lres
             (log (EvClientRequest (Some lr)) w1) resp Hresp) in Hcp'.
  injection Hcp' as Hres.
  eexists _, _, _, _, server, _, _.
  split; [exact Hcr'|]. split; [exact Hcp|]. split; [exact Hrun|].
  split.
  { rewrite TransportFacts.emitted_log_record,
      TransportFacts.emitted_log_response,
      TransportFacts.emitted_log_request. reflexivity. }
  split; [reflexivity|]. split; [reflexivity|].
  split.
  { cbn [m_set]. rewrite <- Hres.
    destruct (0 <? http.StatusCode resp);
      destruct Hserver as [->|(h & _ & ->)]; vm_compute;
      repeat (constructor; try reflexivity). }
  split; [reflexivity|].
  destruct Hserver as [->|(h & _ & ->)]; [left; reflexivity|right; eauto].
Qed.

Lemma RoundTrip_attribute_order_witness :
  exists reqAttrs resAttrs wa wb server m w',
    semconv.ClientRequest (Some 1%positive)
      (Demo.answered 200 (Demo.world "example.com:8080"))
    = Some (reqAttrs, wa) /\
    semconv.ClientResponse (Some 7%positive) wa = Some (resAttrs, wb) /\
    RoundTrip (Demo.transport (Demo.answer 200)) (Some 1%positive)
      (Demo.world "example.com:8080")
    = Some ((Some 7%positive, None), w') /\
    emitted w'
    = (emitted (Demo.answered 200 (Demo.world "example.com:8080")) ++ [m])%list /\
    m_attrs m = (reqAttrs ++ resAttrs)%list /\
    m_set m = attribute.NewSet (m_attrs m) /\
    Sorted.StronglySorted
      (fun a b => String.ltb (attribute.Key a) (attribute.Key b) = true)
      (m_set m) /\
    reqAttrs
    = attribute.String_ semconv.HTTPRequestMethodKey
        (http.Method (Demo.request "example.com:8080")) :: server /\
    (server = [] \/
     exists h, server = [attribute.String_ semconv.ServerAddressKey h]).
Proof.
  apply (RoundTrip_attribute_order
           (Demo.transport (Demo.answer 200)) 1 7
           (Demo.world "example.com:8080")
           (Demo.answered 200 (Demo.world "example.com:8080"))
           (Demo.request "example.com:8080") (Demo.response 200)).
  - reflexivity.
  - vm_compute. reflexivity.
  - vm_compute. reflexivity.
Defined.

(** C9: [RoundTrip] itself writes to neither store.  Whether the
    dispatcher fails or succeeds, the result is the dispatcher's, both
    stores are as the dispatcher left them, and a request object that the
    dispatcher left alone is, after the call, what it was before. *)
Theorem RoundTrip_frame (t : Transport) (lr : positive) (res : ptr)
        (err : option error) (w w1 : World) (req : http.Request) :
  rt t (Some lr) w = Some ((res, err), w1) ->
  requests w !! lr = Some req ->
  requests w1 !! lr = Some req ->
  (err = None ->
   exists lres resp, res = Some lres /\ responses w1 !! lres = Some resp) ->
  exists w',
    RoundTrip t (Some lr) w = Some ((res, err), w') /\
    requests w' !! lr = Some req /\
    requests w' = requests w1 /\
    responses w' = responses w1.
Proof.
  intros Hrt Hreq Hreq1 Hres.
  destruct err as [e|].
  - exists w1. split; [apply TransportFacts.RoundTrip_failure_run, Hrt|].
    repeat split. exact Hreq1.
  - destruct (Hres eq_refl) as (lres & resp & -> & Hresp).
    destruct (TransportFacts.RoundTrip_success_run t lr lres w w1 req resp
                Hrt Hreq1 Hresp)
      as (reqAttrs & resAttrs & wa & wb & _ & _ & -> & Hrun).
    eexists. split; [exact Hrun|].
    cbn [requests responses log]. repeat split. exact Hreq1.
Qed.

Lemma RoundTrip_frame_witness :
  exists w',
    RoundTrip (Demo.transport (Demo.answer 200)) (Some 1%positive)
      (Demo.world "example.com")
    = Some ((Some 7%positive, None), w') /\
    requests w' !! 1%positive = Some (Demo.request "example.com") /\
    requests w' = requests (Demo.answered 200 (Demo.world "example.com")) /\
    responses w' = responses (Demo.answered 200 (Demo.world "example.com")).
Proof.
  apply (RoundTrip_frame (Demo.transport (Demo.answer 200)) 1
           (Some 7%positive) None (Demo.world "example.com")
           (Demo.answered 200 (Demo.world "example.com"))
           (Demo.request "example.com")).
  - reflexivity.
  - vm_compute. reflexivity.
  - vm_compute. reflexivity.
  - intros _. exists 7%positive, (Demo.response 200).
    split; [reflexivity | vm_compute; reflexivity].
Defined.

End TransportSpec.

(** * Go strings built by concatenation *)

Module GoStringAppendFacts.
Import GoString GoStringFacts.

Lemma append_nil_l b : "" ++ b = b.
Proof. reflexivity. Qed.

Lemma append_cons c a b : String c a ++ b = String c (a ++ b).
Proof. reflexivity. Qed.

Lemma len_append a b : len (a ++ b) = len a + len b.
Proof.
  induction a as [|c a IH]; rewrite ?append_nil_l, ?append_cons.
  - change (len "") with 0. lia.
  - rewrite !len_cons, IH. lia.
Qed.

Lemma IndexByte_append a b c :
  IndexByte (a ++ b) c
  = if 0 <=? IndexByte a c then IndexByte a c
    else if 0 <=? IndexByte b c then len a + IndexByte b c else -1.
Proof.
  induction a as [|x a IH]; rewrite ?append_nil_l, ?append_cons;
    cbn [IndexByte].
  - change (0 <=? -1) with false. cbv iota. unfold len. cbn.
    pose proof (IndexByte_range b c).
    destruct (Z.leb_spec 0 (IndexByte b c)); lia.
  - rewrite len_cons. destruct (Ascii.eqb x c); [reflexivity|].
    rewrite IH. pose proof (IndexByte_range a c).
    pose proof (IndexByte_range b c). pose proof (len_nonneg a).
    repeat match goal with
           | |- context [Z.leb ?x ?y] => destruct (Z.leb_spec x y)
           | |- context [Z.ltb ?x ?y] => destruct (Z.ltb_spec x y)
           end; lia.
Qed.

Lemma LastIndexByte_append a b c :
  LastIndexByte (a ++ b) c
  = if 0 <=? LastIndexByte b c then len a + LastIndexByte b c
    else LastIndexByte a c.
Proof.
  induction a as [|x a IH]; rewrite ?append_nil_l, ?append_cons;
    cbn [LastIndexByte].
  - unfold len. cbn. pose proof (LastIndexByte_range b c).
    destruct (Z.leb_spec 0 (LastIndexByte b c)); lia.
  - rewrite len_cons, IH. pose proof (LastIndexByte_range a c).
    pose proof (LastIndexByte_range b c). pose proof (len_nonneg a).
    destruct (Ascii.eqb x c);
    repeat match goal with
           | |- context [Z.leb ?x ?y] => destruct (Z.leb_spec x y)
           end; lia.
Qed.

(** A byte that does not occur has neither a first nor a last offset. *)
Lemma LastIndexByte_absent s c : IndexByte s c < 0 -> LastIndexByte s c < 0.
Proof.
  intros H. pose proof (LastIndexByte_range s c).
  destruct (Z.lt_ge_cases (LastIndexByte s c) 0) as [|Hge]; [assumption|].
  apply LastIndexByte_found, IndexByte_le in Hge. lia.
Qed.

Lemma IndexByte_present s c : 0 <= LastIndexByte s c -> 0 <= IndexByte s c.
Proof. intros H. apply LastIndexByte_found, IndexByte_le in H. lia. Qed.

Lemma substring_all s : substring 0 (String.length s) s = s.
Proof.
  induction s as [|c s IH]; cbn; [reflexivity|]. f_equal. exact IH.
Qed.

Lemma substring_prefix a b :
  substring 0 (String.length a) (a ++ b) = a.
Proof.
  induction a as [|c a IH]; rewrite ?append_nil_l, ?append_cons; cbn.
  - destruct b; reflexivity.
  - f_equal. exact IH.
Qed.

Lemma substring_skip a b n m :
  substring (String.length a + n) m (a ++ b) = substring n m b.
Proof.
  induction a as [|c a IH]; rewrite ?append_nil_l, ?append_cons; cbn;
    [reflexivity | exact IH].
Qed.

(** [s[:]], [(a+b)[:len(a)]], [(a+b)[len(a):]] and [(a+b+c)[len(a):len(a)+len(b)]] *)
Lemma slice_all s : slice s 0 (len s) = Some s.
Proof.
  unfold slice. pose proof (len_nonneg s).
  destruct (Z.leb_spec 0 0), (Z.leb_spec 0 (len s)),
    (Z.leb_spec (len s) (len s)); try lia.
  cbn [andb]. f_equal. unfold len.
  replace (Z.to_nat (Z.of_nat (String.length s) - 0)) with (String.length s)
    by lia.
  apply substring_all.
Qed.

Lemma slice_middle a b c :
  slice (a ++ b ++ c) (len a) (len a + len b) = Some b.
Proof.
  unfold slice. rewrite !len_append.
  pose proof (len_nonneg a). pose proof (len_nonneg b).
  pose proof (len_nonneg c).
  destruct (Z.leb_spec 0 (len a)), (Z.leb_spec (len a) (len a + len b)),
    (Z.leb_spec (len a + len b) (len a + (len b + len c))); try lia.
  cbn [andb]. f_equal. unfold len.
  replace (Z.to_nat (Z.of_nat (String.length a)))
    with (String.length a + 0)%nat by lia.
  rewrite substring_skip.
  replace (Z.to_nat (Z.of_nat (String.length a) + Z.of_nat (String.length b)
                     - Z.of_nat (String.length a))) with (String.length b)
    by lia.
  apply substring_prefix.
Qed.

Lemma append_empty_r s : s ++ "" = s.
Proof.
  induction s as [|c s IH]; rewrite ?append_nil_l, ?append_cons;
    [reflexivity|]. f_equal. exact IH.
Qed.

Lemma slice_prefix a b : slice (a ++ b) 0 (len a) = Some a.
Proof.
  pose proof (slice_middle "" a b) as H. rewrite append_nil_l in H.
  exact H.
Qed.

Lemma slice_suffix a b : slice (a ++ b) (len a) (len (a ++ b)) = Some b.
Proof.
  pose proof (slice_middle a b "") as H. rewrite append_empty_r in H.
  rewrite len_append. exact H.
Qed.

End GoStringAppendFacts.

(** * [splitHostPort] on the textual forms it is written for *)

Module SplitHostPortForms.
Import GoString GoStringFacts GoStringAppendFacts.

Lemma slice_drop a b lo hi :
  0 <= lo -> slice (a ++ b) (len a + lo) (len a + hi) = slice b lo hi.
Proof.
  intros Hlo. unfold slice. rewrite len_append. pose proof (len_nonneg a).
  destruct (Z.leb_spec 0 lo); [|lia].
  destruct (Z.leb_spec 0 (len a + lo)); [|lia].
  destruct (Z.leb_spec lo hi), (Z.leb_spec (len a + lo) (len a + hi));
    try lia; [|reflexivity].
  destruct (Z.leb_spec hi (len b)),
    (Z.leb_spec (len a + hi) (len a + len b)); try lia; [|reflexivity].
  cbn [andb]. f_equal. unfold len.
  replace (Z.to_nat (Z.of_nat (String.length a) + lo))
    with (String.length a + Z.to_nat lo)%nat by lia.
  rewrite substring_skip. f_equal. lia.
Qed.

Lemma IndexByte_cons_ne x s c :
  x <> c -> IndexByte s c < 0 -> IndexByte (String x s) c < 0.
Proof.
  intros Hne Hs. cbn [IndexByte].
  destruct (Ascii.eqb_spec x c); [contradiction|].
  destruct (Z.ltb_spec (IndexByte s c) 0); lia.
Qed.

Lemma IndexByte_cons_eq c s : IndexByte (String c s) c = 0.
Proof. cbn [IndexByte]. rewrite Ascii.eqb_refl. reflexivity. Qed.

Lemma LastIndexByte_cons_only c s :
  IndexByte s c < 0 -> LastIndexByte (String c s) c = 0.
Proof.
  intros H. apply LastIndexByte_absent in H. cbn [LastIndexByte].
  destruct (Z.leb_spec 0 (LastIndexByte s c)); [lia|].
  rewrite Ascii.eqb_refl. reflexivity.
Qed.

Lemma LastIndexByte_cons_skip x s c :
  0 <= LastIndexByte s c ->
  LastIndexByte (String x s) c = LastIndexByte s c + 1.
Proof.
  intros H. cbn [LastIndexByte].
  destruct (Z.leb_spec 0 (LastIndexByte s c)); [reflexivity | lia].
Qed.

Lemma LastIndexByte_cons_ne x s c :
  x <> c -> IndexByte s c < 0 -> LastIndexByte (String x s) c < 0.
Proof.
  intros Hne Hs. apply LastIndexByte_absent, IndexByte_cons_ne; assumption.
Qed.

Lemma IndexByte_append_absent a b c :
  IndexByte a c < 0 -> IndexByte b c < 0 -> IndexByte (a ++ b) c < 0.
Proof.
  intros Ha Hb. rewrite IndexByte_append.
  destruct (Z.leb_spec 0 (IndexByte a c)); [lia|].
  destruct (Z.leb_spec 0 (IndexByte b c)); lia.
Qed.

Lemma absent_not_first s c : IndexByte s c < 0 -> at_ s 0 <> Some c.
Proof. intros H E. apply IndexByte_le in E. lia. Qed.

(** The port that [splitHostPort] makes of a port text. *)
Lemma bare_form host pStr :
  IndexByte host ":" < 0 -> IndexByte host "[" < 0 -> IndexByte host "]" < 0 ->
  IndexByte pStr ":" < 0 -> IndexByte pStr "[" < 0 -> IndexByte pStr "]" < 0 ->
  semconv.splitHostPort (host ++ ":" ++ pStr)
  = Some (host,
          match strconv.ParseUint10 pStr 16 with
          | (p, None) => strconv.int_of_uint64 p
          | (_, Some _) => -1
          end).
Proof.
  intros Hh1 Hh2 Hh3 Hp1 Hp2 Hp3.
  change (":" ++ pStr) with (String ":" pStr).
  set (hp := host ++ String ":" pStr).
  pose proof (len_nonneg host) as Hlh. pose proof (len_nonneg pStr) as Hlp.
  assert (Hlen : len hp = len host + 1 + len pStr)
    by (subst hp; rewrite len_append, len_cons; lia).
  assert (F1 : LastIndexByte hp ":" = len host).
  { subst hp. rewrite LastIndexByte_append, LastIndexByte_cons_only by assumption.
    cbn. lia. }
  assert (F2 : IndexByte hp "[" < 0).
  { subst hp. apply IndexByte_append_absent; [assumption|].
    apply IndexByte_cons_ne; [discriminate | assumption]. }
  assert (F3 : IndexByte hp "]" < 0).
  { subst hp. apply IndexByte_append_absent; [assumption|].
    apply IndexByte_cons_ne; [discriminate | assumption]. }
  assert (F4 : strings.HasPrefix hp "[" = false).
  { destruct (strings.HasPrefix hp "[") eqn:E; [|reflexivity].
    apply HasPrefix_bracket in E. apply absent_not_first in F2. contradiction. }
  destruct (at_in_range hp 0 ltac:(lia)) as [c0 F5].
  assert (Hc0 : c0 <> "["%char).
  { intros ->. apply absent_not_first in F2. contradiction. }
  assert (F6 : slice hp 0 (len host) = Some host)
    by (subst hp; apply slice_prefix).
  assert (F8 : slice hp (len host + 1) (len hp) = Some pStr).
  { rewrite Hlen. subst hp.
    replace (len host + 1 + len pStr) with (len host + (1 + len pStr)) by lia.
    rewrite slice_drop by lia.
    change (String ":" pStr) with (":" ++ pStr).
    change 1 with (len ":") at 1 2. rewrite <- len_append.
    apply slice_suffix. }
  unfold semconv.splitHostPort, strings.LastIndex. rewrite F4, F1.
  destruct (Z.ltb_spec (len host) 0); [lia|]. cbn [mbind option_bind].
  unfold net.SplitHostPort. rewrite F1.
  destruct (Z.ltb_spec (len host) 0); [lia|].
  rewrite F5. cbn [mbind option_bind]. unfold net.is_byte.
  destruct (Ascii.eqb_spec c0 "["); [contradiction|].
  unfold slice_to. rewrite F6. cbn [mbind option_bind].
  destruct (Z.leb_spec 0 (IndexByte host ":")); [lia|].
  cbn [mbind option_bind]. unfold slice_from. rewrite slice_all.
  cbn [mbind option_bind].
  destruct (Z.leb_spec 0 (IndexByte hp "[")); [lia|].
  destruct (Z.leb_spec 0 (IndexByte hp "]")); [lia|].
  rewrite F8. cbn [mbind option_bind].
  destruct (strconv.ParseUint10 pStr 16) as [p [e|]]; reflexivity.
Qed.

End SplitHostPortForms.

(** * Port texts written in decimal digits *)

Module DecimalPortFacts.
Import GoString GoStringFacts strconv.

Lemma text_no_byte (c : ascii) (d : Decimal.uint) :
  (byte_of c < 48 \/ 57 < byte_of c) -> IndexByte (DecimalString.NilEmpty.string_of_uint d) c < 0.
Proof.
  intros Hc. induction d; cbn [DecimalString.NilEmpty.string_of_uint];
    [cbn; lia | ..];
    (apply SplitHostPortForms.IndexByte_cons_ne; [|exact IHd]);
    intros <-; vm_compute in Hc; destruct Hc as [Hc|Hc]; discriminate Hc.
Qed.

(** One round of the loop on a decimal digit. *)
Lemma loop_digit s0 ch k rest n :
  byte_of ch = 48 + k -> 0 <= k <= 9 -> 0 <= n <= 65535 ->
  ParseUint_loop s0 10 (maxUint64 / 10 + 1) 65535 (String ch rest) n
  = if n * 10 + k <=? 65535
    then ParseUint_loop s0 10 (maxUint64 / 10 + 1) 65535 rest (n * 10 + k)
    else inl (65535, NumError "ParseUint" s0 ErrRange).
Proof.
  intros Hch Hk Hn. cbn [ParseUint_loop]. rewrite Hch.
  destruct (Z.leb_spec 48 (48 + k)); [|lia].
  destruct (Z.leb_spec (48 + k) 57); [|lia]. cbn [andb].
  replace (48 + k - 48) with k by lia.
  destruct (Z.leb_spec 10 k); [lia|].
  change (maxUint64 / 10 + 1) with 1844674407370955162.
  destruct (Z.leb_spec 1844674407370955162 n); [lia|].
  unfold u64. rewrite (Z.mod_small (n * 10)) by lia.
  rewrite (Z.mod_small (n * 10 + k)) by lia.
  destruct (Z.ltb_spec (n * 10 + k) (n * 10)); [lia|]. cbn [orb].
  destruct (Z.ltb_spec 65535 (n * 10 + k)), (Z.leb_spec (n * 10 + k) 65535);
    try lia; reflexivity.
Qed.

Lemma value_snoc (d : Decimal.uint) (k : N) (f : Decimal.uint -> Decimal.uint) :
  (forall x, DecimalPos.Unsigned.of_lu (f x)
             = (k + 10 * DecimalPos.Unsigned.of_lu x)%N) ->
  (forall x y, Decimal.revapp (f x) y = Decimal.revapp x (f y)) ->
  DecimalPos.Unsigned.of_lu (Decimal.rev (f d))
  = (DecimalPos.Unsigned.of_lu (Decimal.rev d)
     + k * 10 ^ DecimalPos.Unsigned.usize d)%N.
Proof.
  intros Hf Hr. unfold Decimal.rev. rewrite Hr.
  rewrite DecimalPos.Unsigned.of_lu_revapp, Hf.
  change (DecimalPos.Unsigned.of_lu Decimal.Nil) with 0%N.
  fold (Decimal.rev d). rewrite N.mul_0_r, N.add_0_r. reflexivity.
Qed.

(** One constructor of [Decimal.uint]: the digit [k] in front of [d]. *)
Lemma loop_text_step s0 ch (k : N) (f : Decimal.uint -> Decimal.uint)
      (d : Decimal.uint) :
  byte_of ch = 48 + Z.of_N k -> (k <= 9)%N ->
  (forall x, DecimalString.NilEmpty.string_of_uint (f x)
             = String ch (DecimalString.NilEmpty.string_of_uint x)) ->
  (forall x, DecimalPos.Unsigned.of_lu (f x)
             = (k + 10 * DecimalPos.Unsigned.of_lu x)%N) ->
  (forall x y, Decimal.revapp (f x) y = Decimal.revapp x (f y)) ->
  (forall x, DecimalPos.Unsigned.usize (f x)
             = N.succ (DecimalPos.Unsigned.usize x)) ->
  (forall n, 0 <= n <= 65535 ->
     ParseUint_loop s0 10 (maxUint64 / 10 + 1) 65535
       (DecimalString.NilEmpty.string_of_uint d) n
     = let v := n * 10 ^ Z.of_N (DecimalPos.Unsigned.usize d)
                + Z.of_N (DecimalPos.Unsigned.of_lu (Decimal.rev d)) in
       if v <=? 65535 then inr v
       else inl (65535, NumError "ParseUint" s0 ErrRange)) ->
  forall n, 0 <= n <= 65535 ->
    ParseUint_loop s0 10 (maxUint64 / 10 + 1) 65535
      (DecimalString.NilEmpty.string_of_uint (f d)) n
    = let v := n * 10 ^ Z.of_N (DecimalPos.Unsigned.usize (f d))
               + Z.of_N (DecimalPos.Unsigned.of_lu (Decimal.rev (f d))) in
      if v <=? 65535 then inr v
      else inl (65535, NumError "ParseUint" s0 ErrRange).
Proof.
  intros Hch Hk Htext Hlu Hrev Hsize IH n Hn. cbv zeta.
  rewrite Htext, Hsize, (value_snoc d k f Hlu Hrev).
  rewrite (loop_digit s0 ch (Z.of_N k)) by (assumption || lia).
  rewrite N2Z.inj_succ, Z.pow_succ_r by lia.
  rewrite N2Z.inj_add, N2Z.inj_mul, N2Z.inj_pow.
  change (Z.of_N 10) with 10.
  set (P := 10 ^ Z.of_N (DecimalPos.Unsigned.usize d)).
  set (V := Z.of_N (DecimalPos.Unsigned.of_lu (Decimal.rev d))).
  assert (HP : 1 <= P).
  { subst P.
    pose proof (Z.pow_pos_nonneg 10 (Z.of_N (DecimalPos.Unsigned.usize d))).
    lia. }
  assert (HV : 0 <= V) by (subst V; lia).
  destruct (Z.leb_spec (n * 10 + Z.of_N k) 65535) as [Hs|Hs].
  - rewrite IH by lia. cbv zeta. fold P V.
    replace ((n * 10 + Z.of_N k) * P + V)
      with (n * (10 * P) + (V + Z.of_N k * P)) by lia.
    reflexivity.
  - destruct (Z.leb_spec (n * (10 * P) + (V + Z.of_N k * P)) 65535);
      [exfalso; nia | reflexivity].
Qed.

(** The loop on a whole digit sequence, from an accumulator [n]: the
    number the digits denote, or a range error once it passes 65535. *)
Lemma loop_text s0 (d : Decimal.uint) :
  forall n, 0 <= n <= 65535 ->
    ParseUint_loop s0 10 (maxUint64 / 10 + 1) 65535
      (DecimalString.NilEmpty.string_of_uint d) n
    = let v := n * 10 ^ Z.of_N (DecimalPos.Unsigned.usize d)
               + Z.of_N (DecimalPos.Unsigned.of_lu (Decimal.rev d)) in
      if v <=? 65535 then inr v
      else inl (65535, NumError "ParseUint" s0 ErrRange).
Proof.
  induction d as [|d IH|d IH|d IH|d IH|d IH|d IH|d IH|d IH|d IH|d IH].
  - intros n Hn. cbv zeta.
    change (Z.of_N (DecimalPos.Unsigned.usize Decimal.Nil)) with 0.
    change (Z.of_N (DecimalPos.Unsigned.of_lu (Decimal.rev Decimal.Nil)))
      with 0.
    cbn [DecimalString.NilEmpty.string_of_uint ParseUint_loop].
    rewrite Z.pow_0_r, Z.mul_1_r, Z.add_0_r.
    destruct (Z.leb_spec n 65535); [reflexivity | lia].
  - apply (loop_text_step s0 "0" 0 Decimal.D0); (reflexivity || lia || exact IH).
  - apply (loop_text_step s0 "1" 1 Decimal.D1); (reflexivity || lia || exact IH).
  - apply (loop_text_step s0 "2" 2 Decimal.D2); (reflexivity || lia || exact IH).
  - apply (loop_text_step s0 "3" 3 Decimal.D3); (reflexivity || lia || exact IH).
  - apply (loop_text_step s0 "4" 4 Decimal.D4); (reflexivity || lia || exact IH).
  - apply (loop_text_step s0 "5" 5 Decimal.D5); (reflexivity || lia || exact IH).
  - apply (loop_text_step s0 "6" 6 Decimal.D6); (reflexivity || lia || exact IH).
  - apply (loop_text_step s0 "7" 7 Decimal.D7); (reflexivity || lia || exact IH).
  - apply (loop_text_step s0 "8" 8 Decimal.D8); (reflexivity || lia || exact IH).
  - apply (loop_text_step s0 "9" 9 Decimal.D9); (reflexivity || lia || exact IH).
Qed.

(** [strconv.ParseUint(text, 10, 16)] on a non-empty digit sequence. *)
Lemma ParseUint10_text (d : Decimal.uint) :
  d <> Decimal.Nil ->
  ParseUint10 (DecimalString.NilEmpty.string_of_uint d) 16
  = if Z.of_N (N.of_uint d) <=? 65535
    then (Z.of_N (N.of_uint d), None)
    else (65535,
          Some (NumError "ParseUint"
                  (DecimalString.NilEmpty.string_of_uint d) ErrRange)).
Proof.
  intros Hd. unfold ParseUint10.
  destruct (String.eqb_spec (DecimalString.NilEmpty.string_of_uint d) "")
    as [E|_].
  { destruct d; cbn in E; (contradiction || discriminate). }
  cbn [Z.eqb]. change ((16 <? 0) || (64 <? 16)) with false. cbv iota.
  change (u64 (u64 (Z.shiftl 1 16) - 1)) with 65535.
  rewrite loop_text by lia. cbv zeta. rewrite Z.mul_0_l, Z.add_0_l.
  unfold N.of_uint. rewrite DecimalPos.Unsigned.of_uint_alt.
  destruct (Z.of_N (DecimalPos.Unsigned.of_lu (Decimal.rev d)) <=? 65535);
    reflexivity.
Qed.

End DecimalPortFacts.

(** * [splitHostPort]: the bracket forms and the malformed inputs *)

Module SplitHostPortBracketFacts.
Import GoString GoStringFacts GoStringAppendFacts SplitHostPortForms.

Lemma slice_after_first c b r :
  slice (String c (b ++ r)) 1 (len b + 1) = Some b.
Proof.
  pose proof (slice_middle (String c "") b r) as H.
  change (len (String c "")) with 1 in H.
  rewrite (Z.add_comm (len b)). exact H.
Qed.

Lemma slice_tail_first c s : slice (String c s) 1 (len (String c s)) = Some s.
Proof.
  pose proof (slice_suffix (String c "") s) as H.
  change (len (String c "")) with 1 in H. exact H.
Qed.

(** [[host]:port], for a host without brackets. *)
Lemma bracket_form host pStr :
  IndexByte host "[" < 0 -> IndexByte host "]" < 0 ->
  IndexByte pStr ":" < 0 -> IndexByte pStr "[" < 0 -> IndexByte pStr "]" < 0 ->
  semconv.splitHostPort ("[" ++ host ++ "]:" ++ pStr)
  = Some (host,
          match strconv.ParseUint10 pStr 16 with
          | (p, None) => strconv.int_of_uint64 p
          | (_, Some _) => -1
          end).
Proof.
  intros Hh2 Hh3 Hp1 Hp2 Hp3.
  set (rest := String "]" (String ":" pStr)).
  change ("[" ++ host ++ "]:" ++ pStr) with (String "[" host ++ rest).
  set (hp := String "[" host ++ rest).
  pose proof (len_nonneg host) as Hlh. pose proof (len_nonneg pStr) as Hlp.
  assert (Hla : len (String "[" host) = len host + 1) by apply len_cons.
  assert (Hlr : len rest = len pStr + 2)
    by (unfold rest; rewrite !len_cons; lia).
  assert (Hlen : len hp = len host + len pStr + 3)
    by (unfold hp; rewrite len_append; lia).
  assert (Hr1 : LastIndexByte rest ":" = 1).
  { unfold rest. rewrite LastIndexByte_cons_skip;
      rewrite LastIndexByte_cons_only by assumption; lia. }
  assert (Hr2 : LastIndexByte rest "]" = 0).
  { unfold rest. apply LastIndexByte_cons_only.
    apply IndexByte_cons_ne; [discriminate | assumption]. }
  assert (Hr3 : IndexByte rest "]" = 0) by apply IndexByte_cons_eq.
  assert (Hr4 : IndexByte rest "[" < 0).
  { unfold rest. apply IndexByte_cons_ne; [discriminate|].
    apply IndexByte_cons_ne; [discriminate | assumption]. }
  assert (Ha3 : IndexByte (String "[" host) "]" < 0)
    by (apply IndexByte_cons_ne; [discriminate | assumption]).
  assert (F0 : at_ hp 0 = Some "["%char) by (unfold hp; apply at_zero).
  assert (F1 : LastIndexByte hp ":" = len host + 2)
    by (unfold hp; rewrite LastIndexByte_append, Hr1; cbn; lia).
  assert (F2 : LastIndexByte hp "]" = len host + 1)
    by (unfold hp; rewrite LastIndexByte_append, Hr2; cbn; lia).
  assert (F3 : IndexByte hp "]" = len host + 1).
  { unfold hp. rewrite IndexByte_append, Hr3.
    destruct (Z.leb_spec 0 (IndexByte (String "[" host) "]")); [lia|].
    cbn. lia. }
  assert (S1 : slice hp 1 (len host + 1) = Some host).
  { unfold hp. apply slice_after_first. }
  assert (S2 : slice hp 1 (len hp) = Some (host ++ rest)).
  { unfold hp. apply slice_tail_first. }
  assert (S3 : slice hp (len host + 1) (len hp) = Some rest).
  { unfold hp. rewrite <- Hla. apply slice_suffix. }
  assert (S4 : slice hp (len host + 2) (len hp) = Some (String ":" pStr)).
  { rewrite Hlen. unfold hp.
    replace (len host + 2) with (len (String "[" host) + 1) by lia.
    replace (len host + len pStr + 3)
      with (len (String "[" host) + (1 + len (String ":" pStr)))
      by (rewrite Hla, len_cons; lia).
    rewrite slice_drop by lia. unfold rest.
    replace (1 + len (String ":" pStr))
      with (len (String "]" (String ":" pStr)))
      by (rewrite (len_cons "]"); lia).
    apply slice_tail_first. }
  assert (S5 : slice hp (len host + 3) (len hp) = Some pStr).
  { rewrite Hlen. unfold hp.
    replace (len host + 3) with (len (String "[" host) + 2) by lia.
    replace (len host + len pStr + 3)
      with (len (String "[" host) + (2 + len pStr)) by lia.
    rewrite slice_drop by lia. unfold rest.
    pose proof (slice_suffix "]:" pStr) as H.
    rewrite len_append in H. exact H. }
  unfold semconv.splitHostPort, strings.LastIndex.
  rewrite (proj2 (HasPrefix_bracket hp) F0), F2.
  destruct (Z.ltb_spec (len host + 1) 0); [lia|].
  unfold slice_from at 1. rewrite S3. cbn [mbind option_bind]. rewrite Hr1.
  change (1 <? 0) with false. cbv iota. cbn [mbind option_bind].
  unfold net.SplitHostPort. rewrite F1.
  destruct (Z.ltb_spec (len host + 2) 0); [lia|].
  rewrite F0. cbn [mbind option_bind]. unfold net.is_byte.
  rewrite Ascii.eqb_refl, F3.
  destruct (Z.ltb_spec (len host + 1) 0); [lia|].
  destruct (Z.eqb_spec (len host + 1 + 1) (len hp)); [lia|].
  destruct (Z.eqb_spec (len host + 1 + 1) (len host + 2)); [|lia].
  rewrite S1. cbn [mbind option_bind]. unfold slice_from.
  rewrite S2. cbn [mbind option_bind].
  assert (Hsj : IndexByte (host ++ rest) "[" < 0)
    by (apply IndexByte_append_absent; assumption).
  destruct (Z.leb_spec 0 (IndexByte (host ++ rest) "[")); [lia|].
  replace (len host + 1 + 1) with (len host + 2) by lia. rewrite S4.
  cbn [mbind option_bind].
  assert (Hsk : IndexByte (String ":" pStr) "]" < 0)
    by (apply IndexByte_cons_ne; [discriminate | assumption]).
  destruct (Z.leb_spec 0 (IndexByte (String ":" pStr) "]")); [lia|].
  replace (len host + 2 + 1) with (len host + 3) by lia. rewrite S5.
  cbn [mbind option_bind].
  destruct (strconv.ParseUint10 pStr 16) as [p [perr|]]; reflexivity.
Qed.

(** [[host]], whatever the host. *)
Lemma bracket_only host :
  semconv.splitHostPort ("[" ++ host ++ "]") = Some (host, -1).
Proof.
  change ("[" ++ host ++ "]") with (String "[" host ++ "]").
  set (hp := String "[" host ++ "]").
  pose proof (len_nonneg host) as Hlh.
  assert (Hla : len (String "[" host) = len host + 1) by apply len_cons.
  assert (Hlen : len hp = len host + 2)
    by (unfold hp; rewrite len_append, Hla; change (len "]") with 1; lia).
  assert (F0 : at_ hp 0 = Some "["%char) by (unfold hp; apply at_zero).
  assert (F2 : LastIndexByte hp "]" = len host + 1).
  { unfold hp. rewrite LastIndexByte_append, Hla.
    change (LastIndexByte "]" "]") with 0. cbn [Z.leb Z.compare]. lia. }
  assert (S1 : slice hp 1 (len host + 1) = Some host).
  { unfold hp. apply slice_after_first. }
  assert (S3 : slice hp (len host + 1) (len hp) = Some "]").
  { unfold hp. rewrite <- Hla. apply slice_suffix. }
  unfold semconv.splitHostPort, strings.LastIndex.
  rewrite (proj2 (HasPrefix_bracket hp) F0), F2.
  destruct (Z.ltb_spec (len host + 1) 0); [lia|].
  unfold slice_from. rewrite S3. cbn [mbind option_bind].
  change (LastIndexByte "]" ":" <? 0) with true. cbv iota.
  rewrite S1. reflexivity.
Qed.

(** Without a leading bracket, two colons are too many. *)
Lemma two_colons hostport :
  strings.HasPrefix hostport "[" = false ->
  IndexByte hostport ":" < LastIndexByte hostport ":" ->
  semconv.splitHostPort hostport = Some ("", -1).
Proof.
  intros Hpre Hcolons.
  pose proof (IndexByte_range hostport ":") as Hr1.
  pose proof (LastIndexByte_range hostport ":") as Hr2.
  assert (Hi : 0 <= LastIndexByte hostport ":") by lia.
  pose proof (IndexByte_present _ _ Hi) as Hf.
  unfold semconv.splitHostPort, strings.LastIndex. rewrite Hpre.
  destruct (Z.ltb_spec (LastIndexByte hostport ":") 0); [lia|].
  cbn [mbind option_bind]. unfold net.SplitHostPort.
  destruct (Z.ltb_spec (LastIndexByte hostport ":") 0); [lia|].
  destruct (at_in_range hostport 0 ltac:(lia)) as [c0 Hc0]. rewrite Hc0.
  cbn [mbind option_bind]. unfold net.is_byte.
  destruct (Ascii.eqb_spec c0 "[") as [->|_].
  { apply HasPrefix_bracket in Hc0. congruence. }
  unfold slice_to.
  destruct (slice_in_range hostport 0 (LastIndexByte hostport ":")
              ltac:(lia) ltac:(lia)) as [host Hhost].
  rewrite Hhost. cbn [mbind option_bind].
  assert (Hat : at_ host (IndexByte hostport ":") = Some ":"%char).
  { rewrite (slice_at _ _ _ _ _ Hhost) by lia. cbn [Z.add].
    apply IndexByte_found, Hf. }
  apply IndexByte_le in Hat.
  destruct (Z.leb_spec 0 (IndexByte host ":")); [reflexivity | lia].
Qed.

(** No colon and no leading bracket: the whole input is the host. *)
Lemma no_colon hostport :
  strings.HasPrefix hostport "[" = false ->
  IndexByte hostport ":" < 0 ->
  semconv.splitHostPort hostport = Some (hostport, -1).
Proof.
  intros Hpre Hc. apply LastIndexByte_absent in Hc.
  unfold semconv.splitHostPort, strings.LastIndex. rewrite Hpre.
  destruct (Z.ltb_spec (LastIndexByte hostport ":") 0); [reflexivity | lia].
Qed.

End SplitHostPortBracketFacts.

(** * Slices that follow one another *)

Module GoStringSplitFacts.
Import GoString GoStringFacts GoStringAppendFacts.

Lemma substring_concat s :
  forall n m k,
    substring n m s ++ substring (n + m) k s = substring n (m + k) s.
Proof.
  induction s as [|c s IH]; intros n m k.
  - destruct n, m; cbn; destruct k; reflexivity.
  - destruct n as [|n].
    + destruct m as [|m]; [reflexivity|].
      cbn [substring Nat.add]. rewrite append_cons. f_equal.
      exact (IH 0%nat m k).
    + cbn [substring Nat.add]. apply IH.
Qed.

Lemma slice_concat s lo mid hi a b :
  slice s lo mid = Some a -> slice s mid hi = Some b ->
  slice s lo hi = Some (a ++ b).
Proof.
  intros Ha Hb.
  pose proof (slice_Some_range _ _ _ _ Ha) as [Ha1 Ha2].
  pose proof (slice_Some_range _ _ _ _ Hb) as [Hb1 Hb2].
  unfold slice in *.
  destruct (Z.leb_spec 0 lo), (Z.leb_spec lo mid), (Z.leb_spec mid (len s)),
    (Z.leb_spec 0 mid), (Z.leb_spec mid hi), (Z.leb_spec hi (len s)),
    (Z.leb_spec lo hi); try lia.
  cbn [andb] in *. injection Ha as <-. injection Hb as <-. f_equal.
  replace (Z.to_nat mid) with (Z.to_nat lo + Z.to_nat (mid - lo))%nat by lia.
  rewrite substring_concat. f_equal. lia.
Qed.

Lemma substring_one s : forall n c,
  String.get n s = Some c -> substring n 1 s = String c "".
Proof.
  induction s as [|x s IH]; intros n c H; [discriminate|].
  destruct n as [|n]; cbn in *.
  - injection H as ->. destruct s; reflexivity.
  - apply IH, H.
Qed.

Lemma slice_one s j c : at_ s j = Some c -> slice s j (j + 1) = Some (String c "").
Proof.
  intros H. pose proof (at_Some_range _ _ _ H) as Hr.
  unfold at_ in H. unfold slice.
  destruct (Z.leb_spec 0 j), (Z.ltb_spec j (len s)),
    (Z.leb_spec j (j + 1)), (Z.leb_spec (j + 1) (len s)); try lia.
  cbn [andb] in *. f_equal.
  replace (Z.to_nat (j + 1 - j)) with 1%nat by lia.
  apply substring_one, H.
Qed.

End GoStringSplitFacts.

(** * What a successful [net.SplitHostPort] says about its input *)

Module netShapeFacts.
Import GoString GoStringFacts GoStringAppendFacts GoStringSplitFacts.

Lemma SplitHostPort_ok_shape hostport host pStr :
  net.SplitHostPort hostport = Some (host, pStr, None) ->
  hostport = host ++ ":" ++ pStr \/ hostport = "[" ++ host ++ "]:" ++ pStr.
Proof.
  unfold net.SplitHostPort.
  pose proof (LastIndexByte_range hostport ":") as Hi.
  destruct (Z.ltb_spec (LastIndexByte hostport ":") 0) as [|Hi0];
    [discriminate|].
  pose proof (slice_one _ _ _ (LastIndexByte_found _ _ Hi0)) as Hcolon.
  destruct (at_ hostport 0) as [c0|] eqn:Hc0; [|discriminate].
  cbn [mbind option_bind]. unfold net.is_byte.
  destruct (Ascii.eqb_spec c0 "[") as [->|Hc].
  - destruct (Z.ltb_spec (IndexByte hostport "]") 0) as [|He0];
      [discriminate|].
    destruct (Z.eqb_spec (IndexByte hostport "]" + 1) (len hostport));
      [discriminate|].
    destruct (Z.eqb_spec (IndexByte hostport "]" + 1)
                         (LastIndexByte hostport ":")) as [Hei|Hei].
    + destruct (slice hostport 1 (IndexByte hostport "]")) as [h|] eqn:Hh;
        [|discriminate].
      cbn [mbind option_bind].
      destruct (slice_from hostport 1) as [sj|]; [|discriminate].
      cbn [mbind option_bind].
      destruct (0 <=? IndexByte sj "["); [discriminate|].
      destruct (slice_from hostport (IndexByte hostport "]" + 1)) as [sk|];
        [|discriminate].
      cbn [mbind option_bind].
      destruct (0 <=? IndexByte sk "]"); [discriminate|].
      destruct (slice_from hostport (LastIndexByte hostport ":" + 1))
        as [port|] eqn:Hport; [|discriminate].
      cbn [mbind option_bind]. intros [= <- <-]. right.
      pose proof (slice_one _ _ _ Hc0) as Hopen.
      pose proof (slice_one _ _ _ (IndexByte_found _ _ He0)) as Hclose.
      rewrite Hei in Hclose. unfold slice_from in Hport.
      pose proof (slice_concat _ _ _ _ _ _ Hcolon Hport) as H1.
      pose proof (slice_concat _ _ _ _ _ _ Hclose H1) as H2.
      pose proof (slice_concat _ _ _ _ _ _ Hh H2) as H3.
      pose proof (slice_concat _ _ _ _ _ _ Hopen H3) as H4.
      rewrite slice_all in H4. injection H4 as ->. reflexivity.
    + destruct (at_ hostport (IndexByte hostport "]" + 1)) as [c|];
        [|discriminate].
      cbn [mbind option_bind]. destruct (Ascii.eqb c ":"); discriminate.
  - unfold slice_to.
    destruct (slice hostport 0 (LastIndexByte hostport ":")) as [h|] eqn:Hh;
      [|discriminate].
    cbn [mbind option_bind].
    destruct (0 <=? IndexByte h ":"); [discriminate|].
    cbn [mbind option_bind].
    destruct (slice_from hostport 0) as [sj|]; [|discriminate].
    cbn [mbind option_bind].
    destruct (0 <=? IndexByte sj "["); [discriminate|].
    destruct (0 <=? IndexByte sj "]"); [discriminate|].
    destruct (slice_from hostport (LastIndexByte hostport ":" + 1))
      as [port|] eqn:Hport; [|discriminate].
    cbn [mbind option_bind]. intros [= <- <-]. left.
    unfold slice_from in Hport.
    pose proof (slice_concat _ _ _ _ _ _ Hcolon Hport) as H1.
    pose proof (slice_concat _ _ _ _ _ _ Hh H1) as H2.
    rewrite slice_all in H2. injection H2 as ->. reflexivity.
Qed.

End netShapeFacts.

(** * The host/port splitter: further properties *)

Module SplitHostPortProps.
Import GoString.

(** X1: [host:digits].  For a host without colon or bracket and a
    non-empty run of decimal digits, leading zeros allowed, the split is the
    host and the number the digits denote, or the absent port when that
    number is above 65535. *)
Theorem host_colon_digits (host : string) (d : Decimal.uint) :
  IndexByte host ":" < 0 -> IndexByte host "[" < 0 -> IndexByte host "]" < 0 ->
  d <> Decimal.Nil ->
  semconv.splitHostPort
    (host ++ ":" ++ DecimalString.NilEmpty.string_of_uint d)
  = Some (host,
          if Z.of_N (N.of_uint d) <=? 65535 then Z.of_N (N.of_uint d)
          else -1).
Proof.
  intros H1 H2 H3 Hd.
  rewrite SplitHostPortForms.bare_form;
    try assumption;
    try (apply DecimalPortFacts.text_no_byte; vm_compute; right; reflexivity).
  rewrite (DecimalPortFacts.ParseUint10_text d Hd).
  destruct (Z.leb_spec (Z.of_N (N.of_uint d)) 65535); [|reflexivity].
  rewrite strconvFacts.int_of_uint64_small by lia. reflexivity.
Qed.

Lemma host_colon_digits_witness :
  semconv.splitHostPort
    ("example.com" ++ ":" ++ DecimalString.NilEmpty.string_of_uint
                               (Decimal.D0 (Decimal.D0 (Decimal.D8
                                  (Decimal.D0 Decimal.Nil)))))
  = Some ("example.com",
          if Z.of_N (N.of_uint (Decimal.D0 (Decimal.D0 (Decimal.D8
                                   (Decimal.D0 Decimal.Nil))))) <=? 65535
          then Z.of_N (N.of_uint (Decimal.D0 (Decimal.D0 (Decimal.D8
                                     (Decimal.D0 Decimal.Nil)))))
          else -1).
Proof.
  apply (host_colon_digits "example.com"
           (Decimal.D0 (Decimal.D0 (Decimal.D8 (Decimal.D0 Decimal.Nil)))));
    (vm_compute; reflexivity) || discriminate.
Defined.

(** X2: [[host]:digits].  Inside brackets the host may hold colons and a
    zone; as long as it holds no bracket, the split is that host and the
    number the digits denote, or the absent port above 65535. *)
Theorem bracket_host_colon_digits (host : string) (d : Decimal.uint) :
  IndexByte host "[" < 0 -> IndexByte host "]" < 0 ->
  d <> Decimal.Nil ->
  semconv.splitHostPort
    ("[" ++ host ++ "]:" ++ DecimalString.NilEmpty.string_of_uint d)
  = Some (host,
          if Z.of_N (N.of_uint d) <=? 65535 then Z.of_N (N.of_uint d)
          else -1).
Proof.
  intros H2 H3 Hd.
  rewrite SplitHostPortBracketFacts.bracket_form;
    try assumption;
    try (apply DecimalPortFacts.text_no_byte; vm_compute; right; reflexivity).
  rewrite (DecimalPortFacts.ParseUint10_text d Hd).
  destruct (Z.leb_spec (Z.of_N (N.of_uint d)) 65535); [|reflexivity].
  rewrite strconvFacts.int_of_uint64_small by lia. reflexivity.
Qed.

Lemma bracket_host_colon_digits_witness :
  semconv.splitHostPort
    ("[" ++ "fe80::1%eth0" ++ "]:"
         ++ DecimalString.NilEmpty.string_of_uint
              (Decimal.D7 (Decimal.D0 (Decimal.D0 (Decimal.D0
                 (Decimal.D0 Decimal.Nil))))))
  = Some ("fe80::1%eth0",
          if Z.of_N (N.of_uint (Decimal.D7 (Decimal.D0 (Decimal.D0
                       (Decimal.D0 (Decimal.D0 Decimal.Nil)))))) <=? 65535
          then Z.of_N (N.of_uint (Decimal.D7 (Decimal.D0 (Decimal.D0
                         (Decimal.D0 (Decimal.D0 Decimal.Nil))))))
          else -1).
Proof.
  apply (bracket_host_colon_digits "fe80::1%eth0"
           (Decimal.D7 (Decimal.D0 (Decimal.D0 (Decimal.D0
              (Decimal.D0 Decimal.Nil))))));
    (vm_compute; reflexivity) || discriminate.
Defined.

(** X3: [[host]] with nothing after the closing bracket gives back what
    stands between the outer brackets, whatever it is, and no port. *)
Theorem bracket_without_port (host : string) :
  semconv.splitHostPort ("[" ++ host ++ "]") = Some (host, -1).
Proof. exact (SplitHostPortBracketFacts.bracket_only host). Qed.

(** X4: an input that does not start with a bracket and holds two or more
    colons, such as a bare IPv6 address, is rejected whole: empty host,
    absent port. *)
Theorem unbracketed_two_colons (hostport : string) :
  strings.HasPrefix hostport "[" = false ->
  IndexByte hostport ":" < LastIndexByte hostport ":" ->
  semconv.splitHostPort hostport = Some ("", -1).
Proof. exact (SplitHostPortBracketFacts.two_colons hostport). Qed.

Lemma unbracketed_two_colons_witness :
  semconv.splitHostPort "2001:db8::1" = Some ("", -1).
Proof.
  apply (unbracketed_two_colons "2001:db8::1");
    vm_compute; reflexivity.
Defined.

(** X5: a port is never made up.  Whenever [splitHostPort] returns a port
    other than -1, its input is literally [host:text] or [[host]:text] for
    the host it returns, and the port is what the 16-bit decimal parse
    makes of [text]. *)
Theorem port_sound (hostport host : string) (port : Z) :
  semconv.splitHostPort hostport = Some (host, port) ->
  port <> -1 ->
  exists pStr,
    strconv.ParseUint10 pStr 16 = (port, None) /\
    (hostport = host ++ ":" ++ pStr \/ hostport = "[" ++ host ++ "]:" ++ pStr).
Proof.
  unfold semconv.splitHostPort. intros H Hport.
  assert (Hfull : net.SplitHostPort hostport ≫=
            (λ '(host, pStr, err),
               match err with
               | Some _ => Some (host, -1)
               | None =>
                   let '(p, err) := strconv.ParseUint10 pStr 16 in
                   match err with
                   | Some _ => Some (host, -1)
                   | None => Some (host, strconv.int_of_uint64 p)
                   end
               end) = Some (host, port)).
  { destruct (strings.HasPrefix hostport "[").
    - destruct (strings.LastIndex hostport "]" <? 0);
        [cbn in H; congruence|].
      destruct (slice_from hostport (strings.LastIndex hostport "]"))
        as [tail|]; [|discriminate].
      cbn [mbind option_bind] in H.
      destruct (strings.LastIndex tail ":" <? 0); [|exact H].
      destruct (slice hostport 1 (strings.LastIndex hostport "]"));
        cbn in H; congruence.
    - destruct (strings.LastIndex hostport ":" <? 0);
        [cbn in H; congruence | exact H]. }
  clear H.
  destruct (net.SplitHostPort hostport) as [[[h pStr] err]|] eqn:Hs;
    [|discriminate].
  cbn [mbind option_bind] in Hfull.
  destruct err as [e|]; [congruence|].
  destruct (strconv.ParseUint10 pStr 16) as [p [e|]] eqn:Hp; [congruence|].
  injection Hfull as <- <-.
  pose proof (strconvFacts.ParseUint10_16_bound _ _ Hp) as Hb.
  rewrite strconvFacts.int_of_uint64_small by exact Hb.
  exists pStr. split; [exact Hp|].
  apply netShapeFacts.SplitHostPort_ok_shape, Hs.
Qed.

Lemma port_sound_witness :
  exists pStr,
    strconv.ParseUint10 pStr 16 = (443, None) /\
    ("[::1]:443" = "::1" ++ ":" ++ pStr \/
     "[::1]:443" = "[" ++ "::1" ++ "]:" ++ pStr).
Proof.
  apply (port_sound "[::1]:443" "::1" 443).
  - vm_compute. reflexivity.
  - discriminate.
Defined.

End SplitHostPortProps.

(** * The attribute extractor: further properties *)

Module ExtractorProps.
Import GoString.

(** X6: on every live request [ClientRequest] returns the method label
    and at most one server-address label; that label never carries the
    empty string, and it is left out when the split host is empty. *)
Theorem ClientRequest_labels (l : positive) (w : World) (req : http.Request) :
  requests w !! l = Some req ->
  exists server,
    fst <$> semconv.ClientRequest (Some l) w
    = Some (attribute.String_ semconv.HTTPRequestMethodKey (http.Method req)
              :: server) /\
    (server = [] \/
     exists h, h <> "" /\
               server = [attribute.String_ semconv.ServerAddressKey h]) /\
    (forall port,
        semconv.splitHostPort (http.Host req) = Some ("", port) ->
        server = []).
Proof.
  intros Hl.
  destruct (ExtractorFacts.ClientRequest_run l w req Hl) as (server & Hrun & Hs).
  exists server. split; [rewrite Hrun; reflexivity|]. split; [exact Hs|].
  intros port Hsplit.
  pose proof (ExtractorFacts.ClientRequest_empty_host l w req port Hl Hsplit)
    as He.
  rewrite Hrun in He. cbn in He. congruence.
Qed.

Lemma ClientRequest_labels_witness :
  exists server,
    fst <$> semconv.ClientRequest (Some 1%positive) (Demo.world ":9090")
    = Some (attribute.String_ semconv.HTTPRequestMethodKey
              (http.Method (Demo.request ":9090")) :: server) /\
    (server = [] \/
     exists h, h <> "" /\
               server = [attribute.String_ semconv.ServerAddressKey h]) /\
    (forall port,
        semconv.splitHostPort (http.Host (Demo.request ":9090"))
        = Some ("", port) ->
        server = []).
Proof.
  apply (ClientRequest_labels 1 (Demo.world ":9090") (Demo.request ":9090")).
  vm_compute. reflexivity.
Defined.

(** X7: for an authority [host] or [host:text] whose host is not empty
    and holds no colon or bracket, the server-address label carries exactly
    that host, whatever the port text is. *)
Theorem ClientRequest_plain_host (l : positive) (w : World)
        (req : http.Request) (host : string) :
  requests w !! l = Some req ->
  host <> "" ->
  IndexByte host ":" < 0 -> IndexByte host "[" < 0 -> IndexByte host "]" < 0 ->
  (http.Host req = host \/
   exists pStr,
     IndexByte pStr ":" < 0 /\ IndexByte pStr "[" < 0 /\
     IndexByte pStr "]" < 0 /\ http.Host req = host ++ ":" ++ pStr) ->
  fst <$> semconv.ClientRequest (Some l) w
  = Some [attribute.String_ semconv.HTTPRequestMethodKey (http.Method req);
          attribute.String_ semconv.ServerAddressKey host].
Proof.
  intros Hl Hne H1 H2 H3 Hform.
  assert (Hpre : strings.HasPrefix host "[" = false).
  { destruct (strings.HasPrefix host "[") eqn:E; [|reflexivity].
    apply GoStringFacts.HasPrefix_bracket in E.
    apply SplitHostPortForms.absent_not_first in H2. contradiction. }
  pose proof (SplitHostPortBracketFacts.no_colon host Hpre H1) as Hself.
  assert (Hsplit : exists port,
             semconv.splitHostPort (http.Host req) = Some (host, port)).
  { destruct Hform as [->|(pStr & P1 & P2 & P3 & ->)].
    - eauto.
    - rewrite SplitHostPortForms.bare_form by assumption. eauto. }
  destruct Hsplit as [port Hsplit].
  unfold semconv.ClientRequest, bind, emit, load_request, lift, ret.
  cbn [requests log]. rewrite Hl, Hsplit.
  destruct (String.eqb_spec host ""); [contradiction|]. cbn [negb].
  unfold semconv.peerName. rewrite Hself. cbn [mbind option_bind].
  destruct (String.eqb_spec host ""); [contradiction|]. reflexivity.
Qed.

Lemma ClientRequest_plain_host_witness :
  fst <$> semconv.ClientRequest (Some 1%positive) (Demo.world "example.com:http")
  = Some [attribute.String_ semconv.HTTPRequestMethodKey
            (http.Method (Demo.request "example.com:http"));
          attribute.String_ semconv.ServerAddressKey "example.com"].
Proof.
  apply (ClientRequest_plain_host 1 (Demo.world "example.com:http")
           (Demo.request "example.com:http") "example.com").
  - vm_compute. reflexivity.
  - discriminate.
  - vm_compute. reflexivity.
  - vm_compute. reflexivity.
  - vm_compute. reflexivity.
  - right. exists "http". repeat split; vm_compute; reflexivity.
Defined.

(** X8: for a bracketed authority [[host]] or [[host]:text] whose host
    holds two or more colons and no bracket, as every IPv6 literal does,
    the first split finds the host but [peerName] splits it again and
    finds nothing: only the method label is returned. *)
Theorem ClientRequest_bracketed_host_dropped (l : positive) (w : World)
        (req : http.Request) (host : string) :
  requests w !! l = Some req ->
  IndexByte host "[" < 0 -> IndexByte host "]" < 0 ->
  IndexByte host ":" < LastIndexByte host ":" ->
  (http.Host req = "[" ++ host ++ "]" \/
   exists pStr,
     IndexByte pStr ":" < 0 /\ IndexByte pStr "[" < 0 /\
     IndexByte pStr "]" < 0 /\ http.Host req = "[" ++ host ++ "]:" ++ pStr) ->
  fst <$> semconv.ClientRequest (Some l) w
  = Some [attribute.String_ semconv.HTTPRequestMethodKey (http.Method req)].
Proof.
  intros Hl H2 H3 Hcolons Hform.
  assert (Hpre : strings.HasPrefix host "[" = false).
  { destruct (strings.HasPrefix host "[") eqn:E; [|reflexivity].
    apply GoStringFacts.HasPrefix_bracket in E.
    apply SplitHostPortForms.absent_not_first in H2. contradiction. }
  pose proof (SplitHostPortBracketFacts.two_colons host Hpre Hcolons) as Hself.
  assert (Hsplit : exists port,
             semconv.splitHostPort (http.Host req) = Some (host, port)).
  { destruct Hform as [->|(pStr & P1 & P2 & P3 & ->)].
    - rewrite SplitHostPortBracketFacts.bracket_only. eauto.
    - rewrite SplitHostPortBracketFacts.bracket_form by assumption. eauto. }
  destruct Hsplit as [port Hsplit].
  unfold semconv.ClientRequest, bind, emit, load_request, lift, ret.
  cbn [requests log]. rewrite Hl, Hsplit.
  destruct (negb (String.eqb host "")); [|reflexivity].
  unfold semconv.peerName. rewrite Hself. reflexivity.
Qed.

Lemma ClientRequest_bracketed_host_dropped_witness :
  fst <$> semconv.ClientRequest (Some 1%positive) (Demo.world "[2001:db8::1]:8443")
  = Some [attribute.String_ semconv.HTTPRequestMethodKey
            (http.Method (Demo.request "[2001:db8::1]:8443"))].
Proof.
  apply (ClientRequest_bracketed_host_dropped 1
           (Demo.world "[2001:db8::1]:8443")
           (Demo.request "[2001:db8::1]:8443") "2001:db8::1").
  - vm_compute. reflexivity.
  - vm_compute. reflexivity.
  - vm_compute. reflexivity.
  - vm_compute. reflexivity.
  - right. exists "8443". repeat split; vm_compute; reflexivity.
Defined.

End ExtractorProps.

(** * The measuring transport: further properties *)

Module TransportProps.
Import httpclient.

(** X9: a dispatcher that reports success without a response makes
    [RoundTrip] panic: [ClientResponse] dereferences the nil pointer. *)
Theorem RoundTrip_nil_response_panics (t : Transport) (r : ptr)
        (w w1 : World) :
  rt t r w = Some ((None, None), w1) ->
  RoundTrip t r w = None.
Proof.
  intros H. unfold RoundTrip, bind at 1 2, time.Now. rewrite H.
  unfold bind at 1.
  destruct (semconv.ClientRequest r w1) as [[reqAttrs wa]|]; [|reflexivity].
  unfold bind at 1. reflexivity.
Qed.

Lemma RoundTrip_nil_response_panics_witness :
  RoundTrip {| rt := fun _ w => Some ((None, None), w);
               httpLatency := semconv.ClientRequestDuration |}
    (Some 1%positive) (Demo.world "example.com")
  = None.
Proof.
  apply (RoundTrip_nil_response_panics
           {| rt := fun _ w => Some ((None, None), w);
              httpLatency := semconv.ClientRequestDuration |}
           (Some 1%positive) (Demo.world "example.com")
           (Demo.world "example.com")).
  reflexivity.
Defined.

(** X10: a measuring transport is a dispatcher itself.  Wrapped in a
    second one, a successful request is recorded twice, first by the inner
    and then by the outer transport, each on its own histogram and both
    with the same labels. *)
Theorem stacked_transports (t1 : Transport) (h : metric.Float64Histogram)
        (lr lres : positive) (w w1 : World)
        (req : http.Request) (resp : http.Response) :
  rt t1 (Some lr) w = Some ((Some lres, None), w1) ->
  requests w1 !! lr = Some req ->
  responses w1 !! lres = Some resp ->
  exists m1 m2 w',
    RoundTrip {| rt := RoundTrip t1; httpLatency := h |} (Some lr) w
    = Some ((Some lres, None), w') /\
    emitted w' = (emitted w1 ++ [m1; m2])%list /\
    m_instrument m1 = httpLatency t1 /\
    m_instrument m2 = h /\
    m_attrs m1 = m_attrs m2.
Proof.
  intros Hrt Hreq Hresp.
  destruct (TransportFacts.RoundTrip_success_run t1 lr lres w w1 req resp
              Hrt Hreq Hresp)
    as (a1 & b1 & wa1 & wb1 & Hcr1 & Hcp1 & -> & Hrun1).
  set (w2 := log _ _) in Hrun1.
  destruct (TransportFacts.RoundTrip_success_run
              {| rt := RoundTrip t1; httpLatency := h |} lr lres w w2 req resp
              Hrun1 Hreq Hresp)
    as (a2 & b2 & wa2 & wb2 & Hcr2 & Hcp2 & -> & Hrun2).
  eexists _, _, _. split; [exact Hrun2|].
  split.
  { rewrite TransportFacts.emitted_log_record,
      TransportFacts.emitted_log_response,
      TransportFacts.emitted_log_request.
    unfold w2. rewrite TransportFacts.emitted_log_record,
      TransportFacts.emitted_log_response,
      TransportFacts.emitted_log_request.
    rewrite <- app_assoc. reflexivity. }
  split; [reflexivity|]. split; [reflexivity|].
  cbn [m_attrs].
  pose proof (ExtractorFacts.ClientRequest_indep lr w1 w2 req Hreq Hreq) as Hi.
  rewrite Hcr1, Hcr2 in Hi. cbn in Hi. injection Hi as ->.
  destruct (ExtractorFacts.ClientRequest_run lr w1 req Hreq)
    as (s1 & Hr1 & _).
  rewrite Hr1 in Hcr1. injection Hcr1 as _ <-.
  destruct (ExtractorFacts.ClientRequest_run lr w2 req Hreq)
    as (s2 & Hr2 & _).
  rewrite Hr2 in Hcr2. injection Hcr2 as _ <-.
  rewrite (ExtractorFacts.ClientResponse_run lres
             (log (EvClientRequest (Some lr)) w1) resp Hresp) in Hcp1.
  rewrite (ExtractorFacts.ClientResponse_run lres
             (log (EvClientRequest (Some lr)) w2) resp Hresp) in Hcp2.
  injection Hcp1 as <-. injection Hcp2 as <-. reflexivity.
Qed.

Lemma stacked_transports_witness :
  exists m1 m2 w',
    RoundTrip {| rt := RoundTrip (Demo.transport (Demo.answer 204));
                 httpLatency := "outer" |}
      (Some 1%positive) (Demo.world "example.com")
    = Some ((Some 7%positive, None), w') /\
    emitted w'
    = (emitted (Demo.answered 204 (Demo.world "example.com")) ++ [m1; m2])%list /\
    m_instrument m1 = httpLatency (Demo.transport (Demo.answer 204)) /\
    m_instrument m2 = "outer" /\
    m_attrs m1 = m_attrs m2.
Proof.
  apply (stacked_transports (Demo.transport (Demo.answer 204)) "outer" 1 7
           (Demo.world "example.com")
           (Demo.answered 204 (Demo.world "example.com"))
           (Demo.request "example.com") (Demo.response 204)).
  - reflexivity.
  - vm_compute. reflexivity.
  - vm_compute. reflexivity.
Defined.

(** X11: [NewTransport(nil)] dispatches through [http.DefaultTransport],
    and what it records goes to the histogram that the meter returned for
    the instrument [http.client.duration] with unit [s]. *)
Theorem NewTransport_nil_uses_default (g : httpclientNew.Globals)
        (h : metric.Float64Histogram)
        (lr lres : positive) (w w1 : World)
        (req : http.Request) (resp : http.Response) :
  httpclientNew.Float64Histogram g httpclientNew.instrumentationName
    "http.client.duration" "s" = (h, None) ->
  httpclientNew.DefaultTransport g (Some lr) w
  = Some ((Some lres, None), w1) ->
  requests w1 !! lr = Some req ->
  responses w1 !! lres = Some resp ->
  exists t m w',
    httpclientNew.NewTransport g None = Some t /\
    RoundTrip t (Some lr) w = Some ((Some lres, None), w') /\
    emitted w' = (emitted w1 ++ [m])%list /\
    m_instrument m = h.
Proof.
  intros Hm Hrt Hreq Hresp.
  unfold httpclientNew.NewTransport.
  change semconv.ClientRequestDuration with "http.client.duration".
  change semconv.HistogramMeasureUnitSeconds with "s".
  rewrite Hm.
  destruct (TransportFacts.RoundTrip_success_run
              {| rt := httpclientNew.DefaultTransport g; httpLatency := h |}
              lr lres w w1 req resp Hrt Hreq Hresp)
    as (a & b & wa & wb & _ & _ & -> & Hrun).
  eexists _, _, _. split; [reflexivity|]. split; [exact Hrun|].
  split.
  - rewrite TransportFacts.emitted_log_record,
      TransportFacts.emitted_log_response,
      TransportFacts.emitted_log_request. reflexivity.
  - reflexivity.
Qed.

Lemma NewTransport_nil_uses_default_witness :
  exists t m w',
    httpclientNew.NewTransport
      (httpclientNew.demo_globals (Demo.answer 200)) None = Some t /\
    RoundTrip t (Some 1%positive) (Demo.world "example.com")
    = Some ((Some 7%positive, None), w') /\
    emitted w'
    = (emitted (Demo.answered 200 (Demo.world "example.com")) ++ [m])%list /\
    m_instrument m = "http.client.duration".
Proof.
  apply (NewTransport_nil_uses_default
           (httpclientNew.demo_globals (Demo.answer 200))
           "http.client.duration" 1 7 (Demo.world "example.com")
           (Demo.answered 200 (Demo.world "example.com"))
           (Demo.request "example.com") (Demo.response 200)).
  - reflexivity.
  - reflexivity.
  - vm_compute. reflexivity.
  - vm_compute. reflexivity.
Defined.

(** X12: what the histogram gets.  The attribute set of a recorded
    measurement holds the method key once, first, and then at most the
    server address; its keys are pairwise distinct.  Under the method key
    stands the status code when it is positive, the verb being overwritten,
    and the verb otherwise. *)
Theorem recorded_set_method_key (t : Transport)
        (lr lres : positive) (w w1 : World)
        (req : http.Request) (resp : http.Response) :
  rt t (Some lr) w = Some ((Some lres, None), w1) ->
  requests w1 !! lr = Some req ->
  responses w1 !! lres = Some resp ->
  exists m w' server,
    RoundTrip t (Some lr) w = Some ((Some lres, None), w') /\
    emitted w' = (emitted w1 ++ [m])%list /\
    m_set m
    = (if 0 <? http.StatusCode resp
       then attribute.Int "http.request.method" (http.StatusCode resp)
       else attribute.String_ "http.request.method" (http.Method req))
        :: server /\
    (server = [] \/
     exists h, h <> "" /\ server = [attribute.String_ "server.address" h]) /\
    NoDup (map attribute.Key (m_set m)).
Proof.
  intros Hrt Hreq Hresp.
  destruct (TransportFacts.RoundTrip_success_run t lr lres w w1 req resp
              Hrt Hreq Hresp)
    as (a & b & wa & wb & Hcr & Hcp & -> & Hrun).
  destruct (ExtractorFacts.ClientRequest_run lr w1 req Hreq)
    as (server & Hr & Hserver).
  rewrite Hr in Hcr. injection Hcr as <- <-.
  rewrite (ExtractorFacts.ClientResponse_run lres
             (log (EvClientRequest (Some lr)) w1) resp Hresp) in Hcp.
  injection Hcp as <-.
  eexists _, _, server. split; [exact Hrun|]. split.
  { rewrite TransportFacts.emitted_log_record,
      TransportFacts.emitted_log_response,
      TransportFacts.emitted_log_request. reflexivity. }
  cbn [m_set].
  destruct (0 <? http.StatusCode resp);
    destruct Hserver as [->|(h & Hh & ->)];
    (split; [vm_compute; reflexivity|]);
    (split; [(left; reflexivity) || (right; exists h; split;
                                     [exact Hh | reflexivity])|]);
    apply (bool_decide_unpack _); vm_compute; exact I.
Qed.

Lemma recorded_set_method_key_witness :
  exists m w' server,
    RoundTrip (Demo.transport (Demo.answer 200)) (Some 1%positive)
      (Demo.world "example.com")
    = Some ((Some 7%positive, None), w') /\
    emitted w'
    = (emitted (Demo.answered 200 (Demo.world "example.com")) ++ [m])%list /\
    m_set m
    = (if 0 <? http.StatusCode (Demo.response 200)
       then attribute.Int "http.request.method"
              (http.StatusCode (Demo.response 200))
       else attribute.String_ "http.request.method"
              (http.Method (Demo.request "example.com")))
        :: server /\
    (server = [] \/
     exists h, h <> "" /\ server = [attribute.String_ "server.address" h]) /\
    NoDup (map attribute.Key (m_set m)).
Proof.
  apply (recorded_set_method_key (Demo.transport (Demo.answer 200)) 1 7
           (Demo.world "example.com")
           (Demo.answered 200 (Demo.world "example.com"))
           (Demo.request "example.com") (Demo.response 200)).
  - reflexivity.
  - vm_compute. reflexivity.
  - vm_compute. reflexivity.
Defined.

End TransportProps.
